(** * FMTM backend: relational schema, ORM queries and organisation routes

    A shallow embedding of [src/backend/app/db/db_models.py] (the SQLAlchemy
    models) and [src/backend/app/organization/organization_routes.py] (the
    FastAPI organisation endpoints).

    A database is a record of tables; a table is the list of its rows; a row
    is a record with the columns of the model class.  SQL [Integer] and
    [BigInteger] columns are [Z], [String] columns are [string], [DateTime]
    columns are [Z] (a timestamp), and a nullable column is an [option]. *)

From Stdlib Require Import ZArith List Ascii String Bool Lia Permutation Sorted.
Import ListNotations.

Local Open Scope Z_scope.
Local Open Scope list_scope.

(** ** Enumerations of [app.models.enums] *)

Module TaskStatus.

(** Modelled from the spec: [TaskStatus] is imported from [..models.enums],
    which is not among the sources; the members are the statuses the data
    model lists for a task. *)
Inductive t : Set :=
| READY
| LOCKED_FOR_MAPPING
| MAPPED
| LOCKED_FOR_VALIDATION
| VALIDATED
| BAD
| SPLIT.

Definition eq_dec (a b : t) : {a = b} + {a <> b}.
Proof. decide equality. Defined.

Definition eqb (a b : t) : bool := if eq_dec a b then true else false.

End TaskStatus.

Module TaskAction.

(** Modelled from the spec: [TaskAction] is imported from [..models.enums],
    which is not among the sources; the members are the actions of the
    state-machine contract, with the unlock of the transition table. *)
Inductive t : Set :=
| LOCK_FOR_MAPPING
| MAPPED
| LOCK_FOR_VALIDATION
| VALIDATED
| MARK_BAD
| COMMENT
| SPLIT
| UNLOCK.

Definition eq_dec (a b : t) : {a = b} + {a <> b}.
Proof. decide equality. Defined.

End TaskAction.

(** ** Rows: one record per model class

    Each module carries the columns of the class that constraints,
    relationships and routes read.  Columns that no relationship, constraint
    or route mentions (geometries, presets, ODK credentials and the like) are
    left out of the row. *)

Module DbOrganisation.

(** [class DbOrganisation]: table [organisations]. *)
Record t : Set := mk {
  id : Z;                        (* primary key *)
  name : string;                 (* String(512), NOT NULL, UNIQUE *)
  slug : string;                 (* String(255), NOT NULL, UNIQUE *)
  logo : option string;
  description : option string;
  url : option string
}.

End DbOrganisation.

Module DbTeam.

(** [class DbTeam]: table [teams]. *)
Record t : Set := mk {
  id : Z;                        (* primary key *)
  organisation_id : Z;           (* FK organisations.id, NOT NULL *)
  name : string
}.

End DbTeam.

Module DbProject.

(** [class DbProject]: table [projects].  The counters [tasks_mapped],
    [tasks_validated] and [tasks_bad_imagery] are commented out as columns
    in the source: the row does not store them. *)
Record t : Set := mk {
  id : Z;                        (* primary key *)
  author_id : Z;                 (* FK users.id, NOT NULL *)
  organisation_id : option Z;    (* FK organisations.id *)
  total_tasks : option Z
}.

End DbProject.

Module DbProjectInfo.

(** [class DbProjectInfo]: table [project_info]. *)
Record t : Set := mk {
  project_id : Z;                (* FK projects.id, primary key *)
  name : option string
}.

End DbProjectInfo.

Module DbProjectChat.

(** [class DbProjectChat]: table [project_chat]. *)
Record t : Set := mk {
  id : Z;                        (* primary key *)
  project_id : Z;                (* FK projects.id, NOT NULL *)
  user_id : Z;
  time_stamp : Z;
  message : string
}.

End DbProjectChat.

Module DbTask.

(** [class DbTask]: table [tasks], composite primary key
    [(id, project_id)]. *)
Record t : Set := mk {
  id : Z;                        (* primary key, part 1 *)
  project_id : Z;                (* FK projects.id; primary key, part 2 *)
  project_task_index : option Z;
  task_status : option TaskStatus.t;   (* default READY, nullable *)
  locked_by : option Z;          (* FK users.id *)
  mapped_by : option Z;          (* FK users.id *)
  validated_by : option Z        (* FK users.id *)
}.

Definition key (r : t) : Z * Z := (id r, project_id r).

Definition set_task_status (s : option TaskStatus.t) (r : t) : t :=
  mk (id r) (project_id r) (project_task_index r) s
     (locked_by r) (mapped_by r) (validated_by r).

End DbTask.

Module DbTaskHistory.

(** [class DbTaskHistory]: table [task_history]. *)
Record t : Set := mk {
  id : Z;                        (* primary key *)
  project_id : option Z;         (* FK projects.id, nullable *)
  task_id : Z;                   (* NOT NULL *)
  action : TaskAction.t;         (* NOT NULL *)
  action_text : option string;
  action_date : Z;               (* NOT NULL, default timestamp *)
  user_id : Z                    (* FK users.id, NOT NULL *)
}.

End DbTaskHistory.

Module DbTaskInvalidationHistory.

(** [class DbTaskInvalidationHistory]: table [task_invalidation_history]. *)
Record t : Set := mk {
  id : Z;                        (* primary key *)
  project_id : Z;                (* FK projects.id, NOT NULL *)
  task_id : Z;                   (* NOT NULL *)
  is_closed : option bool;       (* default False, nullable *)
  mapper_id : option Z;
  mapped_date : option Z;
  invalidator_id : option Z;
  invalidated_date : option Z;
  invalidation_history_id : option Z;  (* FK task_history.id *)
  validator_id : option Z;
  validated_date : option Z;
  updated_date : option Z
}.

Definition key (r : t) : Z * Z := (task_id r, project_id r).

(** A record is open when [is_closed] is false. *)
Definition is_open (r : t) : bool :=
  match is_closed r with
  | Some false => true
  | _ => false
  end.

End DbTaskInvalidationHistory.

Module DbTaskMappingIssue.

(** [class DbTaskMappingIssue]: table [task_mapping_issues]. *)
Record t : Set := mk {
  id : Z;                        (* primary key *)
  task_history_id : Z;           (* FK task_history.id, NOT NULL *)
  issue : string;
  mapping_issue_category_id : Z;
  count : Z
}.

End DbTaskMappingIssue.

Module DbFeatures.

(** [class DbFeatures]: table [features]. *)
Record t : Set := mk {
  id : Z;                        (* primary key *)
  project_id : option Z;         (* FK projects.id, nullable *)
  task_id : option Z             (* nullable *)
}.

Definition set_project_id (p : option Z) (r : t) : t :=
  mk (id r) p (task_id r).

End DbFeatures.

(** ** The database: the tables a session reads and writes *)

Record Db : Set := mkDb {
  organisations : list DbOrganisation.t;
  teams : list DbTeam.t;
  projects : list DbProject.t;
  project_info : list DbProjectInfo.t;
  project_chat : list DbProjectChat.t;
  tasks : list DbTask.t;
  task_history : list DbTaskHistory.t;
  task_invalidation_history : list DbTaskInvalidationHistory.t;
  task_mapping_issues : list DbTaskMappingIssue.t;
  features : list DbFeatures.t
}.

Definition empty_db : Db := mkDb [] [] [] [] [] [] [] [] [] [].

Definition with_organisations (l : list DbOrganisation.t) (db : Db) : Db :=
  mkDb l (teams db) (projects db) (project_info db) (project_chat db)
       (tasks db) (task_history db) (task_invalidation_history db)
       (task_mapping_issues db) (features db).

Definition with_projects (l : list DbProject.t) (db : Db) : Db :=
  mkDb (organisations db) (teams db) l (project_info db) (project_chat db)
       (tasks db) (task_history db) (task_invalidation_history db)
       (task_mapping_issues db) (features db).

Definition with_tasks (l : list DbTask.t) (db : Db) : Db :=
  mkDb (organisations db) (teams db) (projects db) (project_info db)
       (project_chat db) l (task_history db) (task_invalidation_history db)
       (task_mapping_issues db) (features db).

(** ** Small list and key utilities *)

Definition key_eqb (a b : Z * Z) : bool :=
  (fst a =? fst b) && (snd a =? snd b).

Definition key_mem (k : Z * Z) (ks : list (Z * Z)) : bool :=
  existsb (key_eqb k) ks.

Definition mem_Z (z : Z) (l : list Z) : bool := existsb (Z.eqb z) l.

(** SQL equality of a nullable column with a value: NULL compares to
    nothing. *)
Definition col_eq_Z (c : option Z) (v : Z) : bool :=
  match c with
  | Some x => x =? v
  | None => false
  end.

Definition col_eq_status (c : option TaskStatus.t) (v : TaskStatus.t) : bool :=
  match c with
  | Some x => TaskStatus.eqb x v
  | None => false
  end.

(** ** Derived counts of [DbProject]

    A query is the list of rows it selects: [.filter(c)] keeps the rows
    satisfying [c], [.with_parent(self)] keeps the rows that the relationship
    [DbProject.tasks] attaches to [self] (the foreign key
    [tasks.project_id = projects.id]), and [.count()] is the number of rows
    left. *)
Module Query.
Definition query_DbTask (db : Db) : list DbTask.t := tasks db.

Definition filter_status (s : TaskStatus.t) (q : list DbTask.t) : list DbTask.t :=
  filter (fun t => col_eq_status (DbTask.task_status t) s) q.

Definition with_parent (self : DbProject.t) (q : list DbTask.t) : list DbTask.t :=
  filter (fun t => DbTask.project_id t =? DbProject.id self) q.

Definition count {A : Type} (q : list A) : nat := List.length q.
End Query.

(** [DbProject.tasks_mapped] *)
Definition tasks_mapped (db : Db) (self : DbProject.t) : nat :=
  Query.count
    (Query.with_parent self
       (Query.filter_status TaskStatus.MAPPED (Query.query_DbTask db))).

(** [DbProject.tasks_validated] *)
Definition tasks_validated (db : Db) (self : DbProject.t) : nat :=
  Query.count
    (Query.with_parent self
       (Query.filter_status TaskStatus.VALIDATED (Query.query_DbTask db))).

(** [DbProject.tasks_bad] *)
Definition tasks_bad (db : Db) (self : DbProject.t) : nat :=
  Query.count
    (Query.with_parent self
       (Query.filter_status TaskStatus.BAD (Query.query_DbTask db))).

(** The relationship [DbProject.tasks]: the project's own tasks. *)
Definition project_tasks (db : Db) (self : DbProject.t) : list DbTask.t :=
  filter (fun t => DbTask.project_id t =? DbProject.id self) (tasks db).

Definition option_status_eq_dec (a b : option TaskStatus.t) : {a = b} + {a <> b}.
Proof. decide equality. apply TaskStatus.eq_dec. Defined.

(** The count as the specification words it: the number of occurrences of a
    status among the current statuses of the project's own tasks. *)
Definition count_by_status (db : Db) (project : DbProject.t) (s : TaskStatus.t) : nat :=
  count_occ option_status_eq_dec
    (map DbTask.task_status (project_tasks db project)) (Some s).

(** Assigning [task_status] on the task rows with a given primary key and
    committing: [UPDATE tasks SET task_status = s WHERE (id, project_id) = k]. *)
Definition update_task_status (k : Z * Z) (s : TaskStatus.t) (db : Db) : Db :=
  with_tasks
    (map (fun t => if key_eqb (DbTask.key t) k
                   then DbTask.set_task_status (Some s) t else t)
         (tasks db))
    db.

(** The same assignment for each key of a list, one after the other. *)
Definition mark_tasks (ks : list (Z * Z)) (s : TaskStatus.t) (db : Db) : Db :=
  fold_left (fun d k => update_task_status k s d) ks db.

(** Primary key of [tasks]: no two rows share [(id, project_id)]. *)
Definition tasks_pk (db : Db) : Prop := NoDup (map DbTask.key (tasks db)).

(** ** Declared constraints

    Primary keys, unique constraints and foreign keys as the model classes
    declare them.  The [users] table is not part of the model, so foreign
    keys into [users.id] are not checked. *)

Definition project_ids (db : Db) : list Z := map DbProject.id (projects db).
Definition organisation_ids (db : Db) : list Z :=
  map DbOrganisation.id (organisations db).
Definition task_keys (db : Db) : list (Z * Z) := map DbTask.key (tasks db).
Definition history_ids (db : Db) : list Z :=
  map DbTaskHistory.id (task_history db).

(** [ForeignKey(...)] on one column: a NULL references nothing. *)
Definition fk_column (c : option Z) (ids : list Z) : bool :=
  match c with
  | Some v => mem_Z v ids
  | None => true
  end.

(** [ForeignKeyConstraint([task_id, project_id],
    ["tasks.id", "tasks.project_id"], name="fk_tasks")]: the pair must be the
    key of a task row; as for any composite foreign key of the database, the
    constraint is not checked when one of its columns is NULL. *)
Definition fk_tasks (task_id project_id : option Z) (keys : list (Z * Z)) : bool :=
  match task_id, project_id with
  | Some t, Some p => key_mem (t, p) keys
  | _, _ => true
  end.

Definition team_fk (db : Db) (r : DbTeam.t) : bool :=
  mem_Z (DbTeam.organisation_id r) (organisation_ids db).

Definition project_fk (db : Db) (r : DbProject.t) : bool :=
  fk_column (DbProject.organisation_id r) (organisation_ids db).

Definition project_info_fk (db : Db) (r : DbProjectInfo.t) : bool :=
  mem_Z (DbProjectInfo.project_id r) (project_ids db).

Definition project_chat_fk (db : Db) (r : DbProjectChat.t) : bool :=
  mem_Z (DbProjectChat.project_id r) (project_ids db).

Definition task_fk (db : Db) (r : DbTask.t) : bool :=
  mem_Z (DbTask.project_id r) (project_ids db).

Definition task_history_fk (db : Db) (r : DbTaskHistory.t) : bool :=
  fk_column (DbTaskHistory.project_id r) (project_ids db)
  && fk_tasks (Some (DbTaskHistory.task_id r)) (DbTaskHistory.project_id r)
       (task_keys db).

Definition task_invalidation_history_fk
    (db : Db) (r : DbTaskInvalidationHistory.t) : bool :=
  mem_Z (DbTaskInvalidationHistory.project_id r) (project_ids db)
  && fk_tasks (Some (DbTaskInvalidationHistory.task_id r))
       (Some (DbTaskInvalidationHistory.project_id r)) (task_keys db)
  && fk_column (DbTaskInvalidationHistory.invalidation_history_id r)
       (history_ids db).

Definition task_mapping_issue_fk (db : Db) (r : DbTaskMappingIssue.t) : bool :=
  mem_Z (DbTaskMappingIssue.task_history_id r) (history_ids db).

Definition features_fk (db : Db) (r : DbFeatures.t) : bool :=
  fk_column (DbFeatures.project_id r) (project_ids db)
  && fk_tasks (DbFeatures.task_id r) (DbFeatures.project_id r) (task_keys db).

(** Every foreign key of every row holds. *)
Definition foreign_keys_ok (db : Db) : bool :=
  forallb (team_fk db) (teams db)
  && forallb (project_fk db) (projects db)
  && forallb (project_info_fk db) (project_info db)
  && forallb (project_chat_fk db) (project_chat db)
  && forallb (task_fk db) (tasks db)
  && forallb (task_history_fk db) (task_history db)
  && forallb (task_invalidation_history_fk db) (task_invalidation_history db)
  && forallb (task_mapping_issue_fk db) (task_mapping_issues db)
  && forallb (features_fk db) (features db).

(** The foreign keys, row by row. *)
Record foreign_keys (db : Db) : Prop := {
  fk_of_team : forall r, In r (teams db) -> team_fk db r = true;
  fk_of_project : forall r, In r (projects db) -> project_fk db r = true;
  fk_of_project_info :
    forall r, In r (project_info db) -> project_info_fk db r = true;
  fk_of_project_chat :
    forall r, In r (project_chat db) -> project_chat_fk db r = true;
  fk_of_task : forall r, In r (tasks db) -> task_fk db r = true;
  fk_of_task_history :
    forall r, In r (task_history db) -> task_history_fk db r = true;
  fk_of_task_invalidation_history :
    forall r, In r (task_invalidation_history db) ->
      task_invalidation_history_fk db r = true;
  fk_of_task_mapping_issue :
    forall r, In r (task_mapping_issues db) -> task_mapping_issue_fk db r = true;
  fk_of_features : forall r, In r (features db) -> features_fk db r = true
}.

(** Primary keys: no two rows of a table share the key. *)
Record primary_keys_ok (db : Db) : Prop := {
  pk_organisations : NoDup (organisation_ids db);
  pk_projects : NoDup (project_ids db);
  pk_tasks : tasks_pk db;
  pk_task_history : NoDup (history_ids db)
}.


(** ** Relationships

    A relationship is read as the rows of the target table that its foreign
    key attaches to the parent row. *)

(** [DbTask.task_history]: joined on the composite foreign key [fk_tasks]
    of [task_history]. *)
Definition attached_history (t : DbTask.t) (h : DbTaskHistory.t) : bool :=
  (DbTaskHistory.task_id h =? DbTask.id t)
  && col_eq_Z (DbTaskHistory.project_id h) (DbTask.project_id t).

(** [later_first a b]: [a] may precede [b] when reading latest first. *)
Definition later_first (a b : DbTaskHistory.t) : Prop :=
  DbTaskHistory.action_date b <= DbTaskHistory.action_date a.

(** [order_by=desc(DbTaskHistory.action_date)]: a stable sort, latest row
    first. *)
Fixpoint insert_desc (h : DbTaskHistory.t) (l : list DbTaskHistory.t)
  : list DbTaskHistory.t :=
  match l with
  | [] => [h]
  | x :: l' =>
      if DbTaskHistory.action_date x <=? DbTaskHistory.action_date h
      then h :: x :: l'
      else x :: insert_desc h l'
  end.

Definition order_by_desc_action_date (l : list DbTaskHistory.t)
  : list DbTaskHistory.t :=
  fold_right insert_desc [] l.

(** Reading [task.task_history]. *)
Definition task_history_of (db : Db) (t : DbTask.t) : list DbTaskHistory.t :=
  order_by_desc_action_date (filter (attached_history t) (task_history db)).

(** [DbTaskHistory.invalidation_history]: joined on
    [task_invalidation_history.invalidation_history_id = task_history.id]. *)
Definition attached_invalidation
    (h : DbTaskHistory.t) (r : DbTaskInvalidationHistory.t) : bool :=
  col_eq_Z (DbTaskInvalidationHistory.invalidation_history_id r)
           (DbTaskHistory.id h).

(** [DbTaskHistory.task_mapping_issues]: joined on
    [task_mapping_issues.task_history_id = task_history.id]. *)
Definition attached_issue (h : DbTaskHistory.t) (r : DbTaskMappingIssue.t) : bool :=
  DbTaskMappingIssue.task_history_id r =? DbTaskHistory.id h.

(** ** Exceptions and results *)

(** The exceptions that cross the modelled code; all of them are subclasses
    of Python's [Exception]. *)
Inductive Exception : Set :=
| HTTPException (status_code : Z) (detail : string)   (* fastapi.HTTPException *)
| IntegrityError (detail : string)         (* sqlalchemy.exc.IntegrityError *)
| OtherException (detail : string).

(** A call either returns a value or raises. *)
Inductive result (A : Type) : Type :=
| Return (a : A)
| Raise (e : Exception).

Arguments Return {A} a.
Arguments Raise {A} e.

(** ** Session: delete with cascades, then commit *)

(** [Session.commit()]: the database accepts the flushed state when every
    declared foreign key holds in it; otherwise the flush raises
    [IntegrityError] and nothing is written. *)
Definition commit (db' : Db) : result Db :=
  if foreign_keys_ok db' then Return db'
  else Raise (IntegrityError "foreign key violation").

Definition history_of_tasks (ts : list DbTask.t) (h : DbTaskHistory.t) : bool :=
  existsb (fun t => attached_history t h) ts.

Definition invalidation_of_history
    (hs : list DbTaskHistory.t) (r : DbTaskInvalidationHistory.t) : bool :=
  existsb (fun h => attached_invalidation h r) hs.

Definition issue_of_history
    (hs : list DbTaskHistory.t) (r : DbTaskMappingIssue.t) : bool :=
  existsb (fun h => attached_issue h r) hs.

(** Deleting the task rows selected by [doomed] through the session.  The
    delete cascades along [DbTask.task_history] ([cascade="all"]) to the
    attached history rows, and from each of those along
    [DbTaskHistory.invalidation_history] and
    [DbTaskHistory.task_mapping_issues] (both [cascade="all"]). *)
Definition delete_tasks_cascade (doomed : DbTask.t -> bool) (db : Db) : Db :=
  let ts := filter doomed (tasks db) in
  let hs := filter (history_of_tasks ts) (task_history db) in
  mkDb (organisations db) (teams db) (projects db) (project_info db)
       (project_chat db)
       (filter (fun t => negb (doomed t)) (tasks db))
       (filter (fun h => negb (history_of_tasks ts h)) (task_history db))
       (filter (fun r => negb (invalidation_of_history hs r))
               (task_invalidation_history db))
       (filter (fun r => negb (issue_of_history hs r)) (task_mapping_issues db))
       (features db).

Definition in_project (p : DbProject.t) (t : DbTask.t) : bool :=
  DbTask.project_id t =? DbProject.id p.

(** Deleting a project row through the session.  The delete cascades along
    [DbProject.tasks] and [DbProject.project_info]
    ([cascade="all, delete, delete-orphan"]) and [DbProject.project_chat]
    ([cascade="all"]).  The backref [features] of [DbFeatures.project] has no
    delete cascade: the session sets [project_id] of the project's features
    to NULL. *)
Definition delete_project_cascade (p : DbProject.t) (db : Db) : Db :=
  let db1 := delete_tasks_cascade (in_project p) db in
  mkDb (organisations db1) (teams db1)
       (filter (fun q => negb (DbProject.id q =? DbProject.id p)) (projects db1))
       (filter (fun r => negb (DbProjectInfo.project_id r =? DbProject.id p))
               (project_info db1))
       (filter (fun r => negb (DbProjectChat.project_id r =? DbProject.id p))
               (project_chat db1))
       (tasks db1) (task_history db1) (task_invalidation_history db1)
       (task_mapping_issues db1)
       (map (fun f => if col_eq_Z (DbFeatures.project_id f) (DbProject.id p)
                      then DbFeatures.set_project_id None f else f)
            (features db1)).

(** [db.delete(project); db.commit()], for [project] a persistent instance
    of the session, that is a row of the table: the session refuses to delete
    an instance that it did not load or add. *)
Definition session_delete_project (db : Db) (p : DbProject.t) : result Db :=
  commit (delete_project_cascade p db).

Definition same_task (t t' : DbTask.t) : bool :=
  key_eqb (DbTask.key t') (DbTask.key t).

(** [db.delete(task); db.commit()], for [task] a persistent instance of the
    session. *)
Definition session_delete_task (db : Db) (t : DbTask.t) : result Db :=
  commit (delete_tasks_cascade (same_task t) db).




(** ** Writing organisations *)

(** A text is held as the bytes of its UTF-8 encoding.  A byte of the form
    [10xxxxxx] continues a character; every other byte starts one. *)
Definition continues_character (c : ascii) : bool :=
  match c with
  | Ascii _ _ _ _ _ _ b6 b7 => b7 && negb b6
  end.

(** The number of characters of a text, which is what the length [n] of a
    [String(n)] column limits. *)
Fixpoint char_length (s : string) : nat :=
  match s with
  | EmptyString => O
  | String c s' =>
      if continues_character c then char_length s' else S (char_length s')
  end.

(** [db.add(DbOrganisation(...)); db.commit()].  The primary key
    [organisation_id] is the value that the sequence behind
    [organisations.id] hands out for the row; the sequence is not part of
    the tables, so the value is an argument, and the row is refused when the
    table already uses it.  The row is also refused when the name or the
    slug has more characters than its column declares ([String(512)],
    [String(255)]) or is already used ([unique=True] on both columns). *)
Definition insert_organisation
    (db : Db) (organisation_id : Z) (name slug : string)
    (logo description url : option string)
  : result Db :=
  if (512 <? char_length name)%nat || (255 <? char_length slug)%nat
  then Raise (OtherException "value too long for type character varying")
  else if mem_Z organisation_id (organisation_ids db)
  then Raise (IntegrityError "organisations_pkey")
  else if existsb (fun o => String.eqb (DbOrganisation.name o) name)
                  (organisations db)
  then Raise (IntegrityError "organisations_name_key")
  else if existsb (fun o => String.eqb (DbOrganisation.slug o) slug)
                  (organisations db)
  then Raise (IntegrityError "organisations_slug_key")
  else Return
         (with_organisations
            (organisations db
             ++ [DbOrganisation.mk organisation_id name slug logo description url])
            db).

(** [db.delete(organization); db.commit()].  Neither backref of
    [DbOrganisation] ([teams], [projects]) has a delete cascade, so the
    session sets the foreign key of the attached rows to NULL:
    [teams.organisation_id] is NOT NULL and the flush then raises, while
    [projects.organisation_id] is nullable.  The [organisation_managers]
    association and the [user_roles] table are not part of the model. *)
Definition session_delete_organisation (db : Db) (o : DbOrganisation.t)
  : result Db :=
  if existsb (fun t => DbTeam.organisation_id t =? DbOrganisation.id o) (teams db)
  then Raise (IntegrityError "null value in column organisation_id of teams")
  else commit
         (with_projects
            (map (fun q => if col_eq_Z (DbProject.organisation_id q)
                                       (DbOrganisation.id o)
                           then DbProject.mk (DbProject.id q) (DbProject.author_id q)
                                  None (DbProject.total_tasks q)
                           else q)
                 (projects db))
            (with_organisations
               (filter (fun x => negb (DbOrganisation.id x =? DbOrganisation.id o))
                       (organisations db))
               db)).

(** ** [organization_crud]: the functions the routes delegate to *)

Module organization_crud.

(** Modelled from the spec: [organization_crud.get_organisations] is not
    among the sources; it is the CRUD read of all organisation rows. *)
Definition get_organisations (db : Db) : list DbOrganisation.t :=
  organisations db.

(** Modelled from the spec: [organization_crud.get_organisation_by_id] is not
    among the sources; it is the CRUD read of the organisation row with the
    given primary key, [None] when there is none. *)
Definition get_organisation_by_id (db : Db) (id : Z) : option DbOrganisation.t :=
  find (fun o => DbOrganisation.id o =? id) (organisations db).

(** Modelled from the spec: [organization_crud.get_organisation_by_name] is
    not among the sources; it is the CRUD read of the organisation row with
    the given name, [None] when there is none. *)
Definition get_organisation_by_name (db : Db) (name : string)
  : option DbOrganisation.t :=
  find (fun o => String.eqb (DbOrganisation.name o) name) (organisations db).

(** Modelled from the spec: [organization_crud.create_organization] is not
    among the sources; it adds one organisation row with the given details,
    subject to the constraints of the table.  The row needs a slug and the
    call carries none, so the slug is derived from the name by
    [generate_slug]; [organisation_id] is the value the sequence hands out;
    the stored logo is the name of the uploaded file. *)
Definition create_organization
    (generate_slug : string -> string) (organisation_id : Z)
    (db : Db) (name : string) (description url logo : option string)
  : Db * result bool :=
  match insert_organisation db organisation_id name (generate_slug name)
          logo description url with
  | Return db' => (db', Return true)
  | Raise e => (db, Raise e)
  end.

End organization_crud.

(** ** [organization_routes]: the endpoints

    An endpoint takes the database of the session and returns the database
    it leaves together with its response or the exception it raises. *)

Module organization_routes.

(** A JSON object response, as the list of its members. *)
Definition Response : Set := list (string * string).

(** [GET /organization/] *)
Definition get_organisations (db : Db) : Db * result (list DbOrganisation.t) :=
  let organizations := organization_crud.get_organisations db in
  (db, Return organizations).

(** [GET /organization/{organization_id}] *)
Definition get_organization_detail (db : Db) (organization_id : Z)
  : Db * result DbOrganisation.t :=
  match organization_crud.get_organisation_by_id db organization_id with
  | None => (db, Raise (HTTPException 404 "Organization not found"))
  | Some organization => (db, Return organization)
  end.

(** [POST /organization/].  The function
    [organization_crud.create_organization] is not among the sources: it is
    the argument [crud_create_organization], about which nothing is assumed.
    The endpoint does not look at what it returns and catches nothing it
    raises. *)
Definition create_organization
    {A : Type}
    (crud_create_organization :
       Db -> string -> option string -> option string -> option string ->
       Db * result A)
    (db : Db) (name : string) (description url logo : option string)
  : Db * result Response :=
  match organization_crud.get_organisation_by_name db name with
  | Some _ =>
      (db, Raise (HTTPException 400
                    ("Organization already exists with the name " ++ name)%string))
  | None =>
      match crud_create_organization db name description url logo with
      | (db', Return _) =>
          (db', Return [("Message"%string, "Organization Created Successfully."%string)])
      | (db', Raise e) => (db', Raise e)
      end
  end.

(** [PATCH /organization/{organization_id}/].  The function
    [organization_crud.update_organization_info] is not among the sources:
    it is the argument [update_organization_info], about which nothing is
    assumed.  [py_str e] is [str(e)], the text the f-string inserts. *)
Definition update_organization
    {A : Type}
    (py_str : Exception -> string)
    (update_organization_info :
       Db -> Z -> option string -> option string -> option string ->
       option string -> Db * result A)
    (db : Db) (organization_id : Z) (name description url logo : option string)
  : Db * result A :=
  match update_organization_info db organization_id name description url logo with
  | (db', Return organization) => (db', Return organization)
  | (db', Raise e) =>
      (db', Raise (HTTPException 400 ("Error updating organization: " ++ py_str e)%string))
  end.

(** [DELETE /organization/{organization_id}] *)
Definition delete_organisations (db : Db) (organization_id : Z)
  : Db * result Response :=
  match organization_crud.get_organisation_by_id db organization_id with
  | None => (db, Raise (HTTPException 404 "Organization not found"))
  | Some organization =>
      match session_delete_organisation db organization with
      | Return db' =>
          (db', Return [("Message"%string, "Organization Deleted Successfully."%string)])
      | Raise e => (db, Raise e)
      end
  end.

End organization_routes.



(** ** The task status state machine

    The sources hold the task, history and invalidation tables but not the
    code that moves a task from one status to the next.  This module follows
    the state-machine contract of the specification. *)

Module StateMachine.

(** Modelled from the spec: the failure modes of the state machine, which is
    not among the sources: [InvalidTransition] (action not legal from the
    current status), [LockConflict] (task already locked by another user,
    who is named) and [NotFound] (no such task). *)
Inductive TransitionError : Set :=
| InvalidTransition
| LockConflict (holder : Z)
| NotFound.

(** Modelled from the spec: the policy that decides where an invalidated
    task goes back to, LOCKED_FOR_VALIDATION or MAPPED. *)
Inductive ReopenPolicy : Set :=
| REOPEN_LOCKED_FOR_VALIDATION
| REOPEN_MAPPED.

(** Modelled from the spec: the outcome of [apply_action], which is not among
    the sources: the history row it appended, or the failure. *)
Inductive Outcome : Set :=
| Applied (h : DbTaskHistory.t)
| Failed (e : TransitionError).

(** Modelled from the spec: the transition table, which is not among the
    sources, by current status: READY allows LOCK_FOR_MAPPING;
    LOCKED_FOR_MAPPING allows MAPPED, COMMENT and unlock; MAPPED allows
    LOCK_FOR_VALIDATION and COMMENT; LOCKED_FOR_VALIDATION allows VALIDATED,
    MARK_BAD, COMMENT and unlock; VALIDATED may be reopened by MARK_BAD (the
    explicit invalidate action).  BAD and SPLIT have no row. *)
Definition allowed_actions (status : TaskStatus.t) : list TaskAction.t :=
  match status with
  | TaskStatus.READY => [TaskAction.LOCK_FOR_MAPPING]
  | TaskStatus.LOCKED_FOR_MAPPING =>
      [TaskAction.MAPPED; TaskAction.COMMENT; TaskAction.UNLOCK]
  | TaskStatus.MAPPED => [TaskAction.LOCK_FOR_VALIDATION; TaskAction.COMMENT]
  | TaskStatus.LOCKED_FOR_VALIDATION =>
      [TaskAction.VALIDATED; TaskAction.MARK_BAD; TaskAction.COMMENT;
       TaskAction.UNLOCK]
  | TaskStatus.VALIDATED => [TaskAction.MARK_BAD]
  | TaskStatus.BAD => []
  | TaskStatus.SPLIT => []
  end.

(** Modelled from the spec: the status an action of the table results in,
    the transition function not being among the sources.  Unlock goes back to
    READY or MAPPED, COMMENT leaves the status as it is, and MARK_BAD on a
    VALIDATED task reverts it as the policy says. *)
Definition resulting_status
    (policy : ReopenPolicy) (status : TaskStatus.t) (action : TaskAction.t)
  : TaskStatus.t :=
  match action, status with
  | TaskAction.LOCK_FOR_MAPPING, _ => TaskStatus.LOCKED_FOR_MAPPING
  | TaskAction.MAPPED, _ => TaskStatus.MAPPED
  | TaskAction.LOCK_FOR_VALIDATION, _ => TaskStatus.LOCKED_FOR_VALIDATION
  | TaskAction.VALIDATED, _ => TaskStatus.VALIDATED
  | TaskAction.MARK_BAD, TaskStatus.VALIDATED =>
      match policy with
      | REOPEN_LOCKED_FOR_VALIDATION => TaskStatus.LOCKED_FOR_VALIDATION
      | REOPEN_MAPPED => TaskStatus.MAPPED
      end
  | TaskAction.MARK_BAD, _ => TaskStatus.BAD
  | TaskAction.COMMENT, s => s
  | TaskAction.SPLIT, _ => TaskStatus.SPLIT
  | TaskAction.UNLOCK, TaskStatus.LOCKED_FOR_MAPPING => TaskStatus.READY
  | TaskAction.UNLOCK, TaskStatus.LOCKED_FOR_VALIDATION => TaskStatus.MAPPED
  | TaskAction.UNLOCK, s => s
  end.

Definition action_in (action : TaskAction.t) (l : list TaskAction.t) : bool :=
  existsb (fun a => if TaskAction.eq_dec a action then true else false) l.

(** Modelled from the spec: the legality check of [apply_action], which is
    not among the sources: the resulting status when the action is in the
    table for the current status, nothing otherwise. *)
Definition transition
    (policy : ReopenPolicy) (status : TaskStatus.t) (action : TaskAction.t)
  : option TaskStatus.t :=
  if action_in action (allowed_actions status)
  then Some (resulting_status policy status action)
  else None.

Definition is_locked_status (s : TaskStatus.t) : bool :=
  match s with
  | TaskStatus.LOCKED_FOR_MAPPING | TaskStatus.LOCKED_FOR_VALIDATION => true
  | _ => false
  end.

Definition is_lock_action (a : TaskAction.t) : bool :=
  match a with
  | TaskAction.LOCK_FOR_MAPPING | TaskAction.LOCK_FOR_VALIDATION => true
  | _ => false
  end.

(** Reading a task by [(id, project_id)]. *)
Definition find_task (db : Db) (task_id project_id : Z) : option DbTask.t :=
  find (fun t => key_eqb (DbTask.key t) (task_id, project_id)) (tasks db).

(** Modelled from the spec: the update of the task row by [apply_action],
    which is not among the sources: the status becomes the resulting status
    and the relevant actor field is set ([locked_by] for a lock, [mapped_by]
    for MAPPED, [validated_by] for VALIDATED); the lock is held only while
    the status is a locked one.  COMMENT changes nothing. *)
Definition update_task
    (new_status : TaskStatus.t) (action : TaskAction.t) (actor : Z)
    (t : DbTask.t) : DbTask.t :=
  match action with
  | TaskAction.COMMENT => t
  | _ =>
      DbTask.mk (DbTask.id t) (DbTask.project_id t) (DbTask.project_task_index t)
        (Some new_status)
        (if is_locked_status new_status then Some actor else None)
        (match action with
         | TaskAction.MAPPED => Some actor
         | _ => DbTask.mapped_by t
         end)
        (match action with
         | TaskAction.VALIDATED => Some actor
         | _ => DbTask.validated_by t
         end)
  end.

(** Modelled from the spec: the key of a row that [apply_action] appends,
    the code that inserts it not being among the sources: a value that no
    stored row of the table uses, one past the largest.  The state machine
    deletes no row. *)
Definition next_id (ids : list Z) : Z := 1 + fold_right Z.max 0 ids.

Definition for_task (k : Z * Z) (r : DbTaskInvalidationHistory.t) : bool :=
  key_eqb (DbTaskInvalidationHistory.key r) k.

(** Modelled from the spec: closing an invalidation record, the code that
    does so not being among the sources: [is_closed] becomes true. *)
Definition close_record (now : Z) (r : DbTaskInvalidationHistory.t)
  : DbTaskInvalidationHistory.t :=
  DbTaskInvalidationHistory.mk
    (DbTaskInvalidationHistory.id r) (DbTaskInvalidationHistory.project_id r)
    (DbTaskInvalidationHistory.task_id r) (Some true)
    (DbTaskInvalidationHistory.mapper_id r)
    (DbTaskInvalidationHistory.mapped_date r)
    (DbTaskInvalidationHistory.invalidator_id r)
    (DbTaskInvalidationHistory.invalidated_date r)
    (DbTaskInvalidationHistory.invalidation_history_id r)
    (DbTaskInvalidationHistory.validator_id r)
    (DbTaskInvalidationHistory.validated_date r)
    (Some now).

(** Modelled from the spec: re-validation, the code of which is not among
    the sources: the same record is updated with [validator_id] and
    [validated_date], and the cycle is resolved. *)
Definition validate_record (now actor : Z) (r : DbTaskInvalidationHistory.t)
  : DbTaskInvalidationHistory.t :=
  DbTaskInvalidationHistory.mk
    (DbTaskInvalidationHistory.id r) (DbTaskInvalidationHistory.project_id r)
    (DbTaskInvalidationHistory.task_id r) (Some true)
    (DbTaskInvalidationHistory.mapper_id r)
    (DbTaskInvalidationHistory.mapped_date r)
    (DbTaskInvalidationHistory.invalidator_id r)
    (DbTaskInvalidationHistory.invalidated_date r)
    (DbTaskInvalidationHistory.invalidation_history_id r)
    (Some actor) (Some now) (Some now).

(** Rewriting a record with [f] when it is an open record of the task [k]. *)
Definition resolve_open
    (f : DbTaskInvalidationHistory.t -> DbTaskInvalidationHistory.t)
    (k : Z * Z) (r : DbTaskInvalidationHistory.t)
  : DbTaskInvalidationHistory.t :=
  if DbTaskInvalidationHistory.is_open r && for_task k r then f r else r.

(** Modelled from the spec: the invalidation history kept by [apply_action],
    which is not among the sources.  MARK_BAD closes the current record of
    the task and starts a new cycle with a new open record that names the
    invalidator and hangs on the history row of the action; VALIDATED
    resolves the open record of the task; other actions leave the table
    alone. *)
Definition update_invalidation_history
    (now : Z) (t : DbTask.t) (action : TaskAction.t) (actor : Z)
    (history_id : Z) (l : list DbTaskInvalidationHistory.t)
  : list DbTaskInvalidationHistory.t :=
  match action with
  | TaskAction.MARK_BAD =>
      map (resolve_open (close_record now) (DbTask.key t)) l
      ++ [DbTaskInvalidationHistory.mk
            (next_id (map DbTaskInvalidationHistory.id l))
            (DbTask.project_id t) (DbTask.id t) (Some false)
            (DbTask.mapped_by t) None (Some actor) (Some now)
            (Some history_id) None None (Some now)]
  | TaskAction.VALIDATED =>
      map (resolve_open (validate_record now actor) (DbTask.key t)) l
  | _ => l
  end.

(** Modelled from the spec: the lock check of [apply_action], which is not
    among the sources: locking is exclusive, and a lock on a task that
    another user holds conflicts with that holder. *)
Definition lock_conflict (t : DbTask.t) (action : TaskAction.t) (actor : Z)
  : option Z :=
  match DbTask.locked_by t with
  | Some holder =>
      if is_lock_action action && negb (holder =? actor)
      then Some holder else None
  | None => None
  end.

(** Modelled from the spec: the effect of a legal action, the code of which
    is not among the sources: the task row is updated, one history row with
    the current timestamp is appended, and the invalidation history
    follows. *)
Definition perform
    (now : Z) (db : Db) (t : DbTask.t) (new_status : TaskStatus.t)
    (action : TaskAction.t) (actor : Z) (text : option string) : Db * Outcome :=
  let h :=
    DbTaskHistory.mk (next_id (history_ids db)) (Some (DbTask.project_id t))
      (DbTask.id t) action text now actor in
  (mkDb (organisations db) (teams db) (projects db) (project_info db)
        (project_chat db)
        (map (fun r => if key_eqb (DbTask.key r) (DbTask.key t)
                       then update_task new_status action actor r else r)
             (tasks db))
        (task_history db ++ [h])
        (update_invalidation_history now t action actor (DbTaskHistory.id h)
           (task_invalidation_history db))
        (task_mapping_issues db) (features db),
   Applied h).

(** Modelled from the spec: [apply_action(task, action, actor, text)], which
    is not among the sources.  The task is read by its key ([NotFound] when
    there is none).  The call first validates that the transition is legal
    from the current status of the task: an action outside the table for that
    status fails with [InvalidTransition].  A legal lock on a task that
    another user holds fails with [LockConflict] naming the holder.  A legal
    action is otherwise performed.  A failure leaves the database as it
    was. *)
Definition apply_action
    (policy : ReopenPolicy) (now : Z) (db : Db)
    (task_id project_id : Z) (action : TaskAction.t) (actor : Z)
    (text : option string) : Db * Outcome :=
  match find_task db task_id project_id with
  | None => (db, Failed NotFound)
  | Some t =>
      match DbTask.task_status t with
      | None => (db, Failed InvalidTransition)
      | Some status =>
          match transition policy status action with
          | None => (db, Failed InvalidTransition)
          | Some new_status =>
              match lock_conflict t action actor with
              | Some holder => (db, Failed (LockConflict holder))
              | None => perform now db t new_status action actor text
              end
          end
      end
  end.

(** One call of [apply_action], and a sequence of calls run in order. *)
Record Call : Set := mkCall {
  call_now : Z;
  call_task_id : Z;
  call_project_id : Z;
  call_action : TaskAction.t;
  call_actor : Z;
  call_text : option string
}.

Definition step (policy : ReopenPolicy) (db : Db) (c : Call) : Db :=
  fst (apply_action policy (call_now c) db (call_task_id c) (call_project_id c)
         (call_action c) (call_actor c) (call_text c)).

Definition run (policy : ReopenPolicy) (calls : list Call) (db : Db) : Db :=
  fold_left (step policy) calls db.

(** The open invalidation records of a task. *)
Definition open_records (db : Db) (k : Z * Z)
  : list DbTaskInvalidationHistory.t :=
  filter (fun r => DbTaskInvalidationHistory.is_open r && for_task k r)
         (task_invalidation_history db).

(** The closed invalidation records of a task. *)
Definition closed_records (db : Db) (k : Z * Z)
  : list DbTaskInvalidationHistory.t :=
  filter (fun r => negb (DbTaskInvalidationHistory.is_open r) && for_task k r)
         (task_invalidation_history db).

(** Bringing a READY task to VALIDATED: mapped by user 7, validated by
    user 8. *)
Definition validate_calls (task_id project_id : Z) : list Call :=
  [mkCall 0 task_id project_id TaskAction.LOCK_FOR_MAPPING 7 None;
   mkCall 0 task_id project_id TaskAction.MAPPED 7 None;
   mkCall 0 task_id project_id TaskAction.LOCK_FOR_VALIDATION 8 None;
   mkCall 0 task_id project_id TaskAction.VALIDATED 8 None].

(** One invalidation cycle on a VALIDATED task: user 9 invalidates, user 8
    locks the task for validation and validates it again. *)
Definition invalidation_cycle (task_id project_id : Z) : list Call :=
  [mkCall 0 task_id project_id TaskAction.MARK_BAD 9 None;
   mkCall 0 task_id project_id TaskAction.LOCK_FOR_VALIDATION 8 None;
   mkCall 0 task_id project_id TaskAction.VALIDATED 8 None].

Fixpoint invalidation_cycles (n : nat) (task_id project_id : Z) : list Call :=
  match n with
  | O => []
  | S n' =>
      invalidation_cycle task_id project_id
      ++ invalidation_cycles n' task_id project_id
  end.

(** A task that is VALIDATED, with [n] closed invalidation records and no
    open one. *)
Definition settled (db : Db) (task_id project_id : Z) (n : nat) : Prop :=
  exists t,
    find_task db task_id project_id = Some t /\
    DbTask.task_status t = Some TaskStatus.VALIDATED /\
    List.length (closed_records db (task_id, project_id)) = n /\
    open_records db (task_id, project_id) = [].

(** At most one invalidation record of each task is open. *)
Definition single_open (db : Db) : Prop :=
  forall k, (List.length (open_records db k) <= 1)%nat.



End StateMachine.

(** ** Sample databases *)

Definition sample_task (id pid : Z) (s : TaskStatus.t) : DbTask.t :=
  DbTask.mk id pid None (Some s) None None None.

Definition sample_project (id : Z) : DbProject.t :=
  DbProject.mk id 1 None None.

(** One project with five READY tasks. *)
Definition five_tasks_db : Db :=
  with_tasks
    [sample_task 1 1 TaskStatus.READY; sample_task 2 1 TaskStatus.READY;
     sample_task 3 1 TaskStatus.READY; sample_task 4 1 TaskStatus.READY;
     sample_task 5 1 TaskStatus.READY]
    (with_projects [sample_project 1] empty_db).

Definition sample_history (id tid pid : Z) (a : TaskAction.t) (date : Z)
  : DbTaskHistory.t :=
  DbTaskHistory.mk id (Some pid) tid a None date 7.

(** Two projects.  Project 1 has two tasks with two history rows each, an
    invalidation record and a mapping issue hanging on history row 2, an
    info row, a chat message and a feature; project 2 has one task with one
    history row. *)
Definition sample_db : Db :=
  mkDb [] []
    [sample_project 1; sample_project 2]
    [DbProjectInfo.mk 1 None]
    [DbProjectChat.mk 1 1 7 11 "hello"]
    [sample_task 1 1 TaskStatus.MAPPED; sample_task 2 1 TaskStatus.READY;
     sample_task 1 2 TaskStatus.READY]
    [sample_history 1 1 1 TaskAction.LOCK_FOR_MAPPING 10;
     sample_history 2 1 1 TaskAction.MAPPED 20;
     sample_history 3 2 1 TaskAction.LOCK_FOR_MAPPING 15;
     sample_history 4 2 1 TaskAction.COMMENT 30;
     sample_history 5 1 2 TaskAction.LOCK_FOR_MAPPING 12]
    [DbTaskInvalidationHistory.mk 1 1 1 (Some true) (Some 7) None (Some 8)
       None (Some 2) (Some 9) None None]
    [DbTaskMappingIssue.mk 1 2 "missing buildings" 1 3]
    [DbFeatures.mk 1 (Some 1) (Some 1)].


(** Task 1 of project 1 is mapped and validated, then invalidated and
    validated again, twice. *)
Definition two_cycles : list StateMachine.Call :=
  [StateMachine.mkCall 100 1 1 TaskAction.LOCK_FOR_MAPPING 7 None;
   StateMachine.mkCall 101 1 1 TaskAction.MAPPED 7 None;
   StateMachine.mkCall 102 1 1 TaskAction.LOCK_FOR_VALIDATION 8 None;
   StateMachine.mkCall 103 1 1 TaskAction.VALIDATED 8 None;
   StateMachine.mkCall 104 1 1 TaskAction.MARK_BAD 9 (Some "roads missing"%string);
   StateMachine.mkCall 105 1 1 TaskAction.LOCK_FOR_VALIDATION 8 None;
   StateMachine.mkCall 106 1 1 TaskAction.VALIDATED 8 None;
   StateMachine.mkCall 107 1 1 TaskAction.MARK_BAD 9 None;
   StateMachine.mkCall 108 1 1 TaskAction.LOCK_FOR_VALIDATION 8 None;
   StateMachine.mkCall 109 1 1 TaskAction.VALIDATED 8 None].

(** Two organisations: HOT owns project 1, MSF owns project 2 and has a team;
    project 3 belongs to no organisation. *)
Definition two_orgs_db : Db :=
  mkDb
    [DbOrganisation.mk 1 "HOT" "hot" None None None;
     DbOrganisation.mk 2 "MSF" "msf" None None None]
    [DbTeam.mk 1 2 "field"]
    [DbProject.mk 1 7 (Some 1) None; DbProject.mk 2 7 (Some 2) None;
     DbProject.mk 3 7 None None]
    [] [] [] [] [] [] [].

(** [projects.organisation_id] set to NULL where it names [organisation_id]:
    what the session writes to the rows of the backref [projects] when the
    organisation is deleted. *)
Definition without_organisation (organisation_id : Z) (q : DbProject.t)
  : DbProject.t :=
  if col_eq_Z (DbProject.organisation_id q) organisation_id
  then DbProject.mk (DbProject.id q) (DbProject.author_id q) None
         (DbProject.total_tasks q)
  else q.

(** The query behind the three derived counts of [DbProject], for any
    status: [tasks_mapped], [tasks_validated] and [tasks_bad] are its values
    at MAPPED, VALIDATED and BAD. *)
Definition status_count (db : Db) (self : DbProject.t) (s : TaskStatus.t) : nat :=
  Query.count
    (Query.with_parent self (Query.filter_status s (Query.query_DbTask db))).

(** The sample database with two loose rows added: history row 6, written
    with no project, and invalidation record 2 of project 2, which hangs on
    no history row. *)
Definition loose_rows_db : Db :=
  mkDb (organisations sample_db) (teams sample_db) (projects sample_db)
    (project_info sample_db) (project_chat sample_db) (tasks sample_db)
    (task_history sample_db
     ++ [DbTaskHistory.mk 6 None 1 TaskAction.COMMENT (Some "note"%string) 40 7])
    (task_invalidation_history sample_db
     ++ [DbTaskInvalidationHistory.mk 2 2 1 (Some false) (Some 7) None (Some 8)
           None None None None None])
    (task_mapping_issues sample_db) (features sample_db).


(** The sample database with two rows that carry a task id and no project:
    history row 7 with task id 2, which exists under project 1 only, and
    feature 2 with task id 99, which exists under no project. *)
Definition unchecked_rows_db : Db :=
  mkDb (organisations sample_db) (teams sample_db) (projects sample_db)
    (project_info sample_db) (project_chat sample_db) (tasks sample_db)
    (task_history sample_db
     ++ [DbTaskHistory.mk 7 None 2 TaskAction.COMMENT None 50 7])
    (task_invalidation_history sample_db)
    (task_mapping_issues sample_db)
    (features sample_db ++ [DbFeatures.mk 2 None (Some 99)]).

(** * Properties *)

(** A duplicate-free list of closed keys. *)
Ltac prove_NoDup :=
  cbv; repeat (constructor; [simpl; intuition congruence|]); constructor.

(** ** Equality tests and membership *)

Lemma TaskStatus_eqb_eq a b : TaskStatus.eqb a b = true <-> a = b.
Proof. unfold TaskStatus.eqb; destruct (TaskStatus.eq_dec a b); split; congruence. Qed.

Lemma key_eqb_eq a b : key_eqb a b = true <-> a = b.
Proof.
  destruct a as [a1 a2], b as [b1 b2]; unfold key_eqb; simpl.
  rewrite andb_true_iff, !Z.eqb_eq. split.
  - intros [-> ->]; reflexivity.
  - intros E; inversion E; auto.
Qed.

Lemma key_eqb_refl a : key_eqb a a = true.
Proof. now apply key_eqb_eq. Qed.

Lemma key_mem_In k ks : key_mem k ks = true <-> In k ks.
Proof.
  unfold key_mem. rewrite existsb_exists. split.
  - intros [x [Hin E]]. apply key_eqb_eq in E. now subst.
  - intros Hin. exists k. split; [assumption | apply key_eqb_refl].
Qed.

Lemma mem_Z_In z l : mem_Z z l = true <-> In z l.
Proof.
  unfold mem_Z. rewrite existsb_exists. split.
  - intros [x [Hin E]]. apply Z.eqb_eq in E. now subst.
  - intros Hin. exists z. split; [assumption | apply Z.eqb_refl].
Qed.

Lemma col_eq_Z_true c v : col_eq_Z c v = true <-> c = Some v.
Proof.
  destruct c as [x|]; simpl.
  - rewrite Z.eqb_eq. split; congruence.
  - split; discriminate.
Qed.

Lemma col_eq_status_true c v : col_eq_status c v = true <-> c = Some v.
Proof.
  destruct c as [x|]; simpl.
  - rewrite TaskStatus_eqb_eq. split; congruence.
  - split; discriminate.
Qed.


(** ** Generic facts about filtered and mapped tables *)

Lemma filter_map_length {A B : Type} (f : A -> B) (p : B -> bool) (l : list A) :
  List.length (filter p (map f l)) = List.length (filter (fun x => p (f x)) l).
Proof.
  induction l as [|x l IH]; simpl; [reflexivity|].
  destruct (p (f x)); simpl; congruence.
Qed.

Lemma filter_none {A : Type} (p : A -> bool) (l : list A) :
  (forall x, In x l -> p x = false) -> filter p l = [].
Proof.
  induction l as [|x l IH]; simpl; intros H; [reflexivity|].
  rewrite (H x (or_introl eq_refl)). apply IH. intros y Hy. apply H. now right.
Qed.

(** Selecting rows keeps their keys distinct. *)
Lemma NoDup_map_filter {Row Key : Type}
    (key : Row -> Key) (keep : Row -> bool) (rows : list Row) :
  NoDup (map key rows) -> NoDup (map key (filter keep rows)).
Proof.
  induction rows as [|r rows IH]; simpl; intros Hkeys; [constructor|].
  inversion Hkeys as [|? ? Hfresh Hrest]; subst.
  destruct (keep r); simpl; [|now apply IH].
  constructor; [|now apply IH].
  intros Hin. apply Hfresh. apply in_map_iff in Hin.
  destruct Hin as [r' [Hkey Hin]]. apply filter_In in Hin.
  apply in_map_iff. exists r'. tauto.
Qed.

Lemma NoDup_map_inj_on {A B : Type} (f : A -> B) (l : list A) x y :
  NoDup (map f l) -> In x l -> In y l -> f x = f y -> x = y.
Proof.
  induction l as [|a l IH]; simpl; intros Hnd Hx Hy E; [contradiction|].
  inversion Hnd as [|? ? Hnotin Hnd']; subst.
  destruct Hx as [-> | Hx], Hy as [-> | Hy]; auto.
  - exfalso. apply Hnotin. rewrite E. now apply in_map.
  - exfalso. apply Hnotin. rewrite <- E. now apply in_map.
Qed.

Lemma existsb_false_iff {A : Type} (f : A -> bool) (l : list A) :
  existsb f l = false <-> forall x, In x l -> f x = false.
Proof.
  split.
  - intros H x Hin. destruct (f x) eqn:E; [|reflexivity].
    assert (existsb f l = true) by (apply existsb_exists; eauto). congruence.
  - intros H. destruct (existsb f l) eqn:E; [|reflexivity].
    apply existsb_exists in E. destruct E as [x [Hin Hx]].
    rewrite (H x Hin) in Hx. discriminate.
Qed.

(** ** Derived counts *)

Lemma status_query_count (s : TaskStatus.t) (pid : Z) (l : list DbTask.t) :
  List.length
    (filter (fun t => DbTask.project_id t =? pid)
       (filter (fun t => col_eq_status (DbTask.task_status t) s) l))
  = count_occ option_status_eq_dec
      (map DbTask.task_status (filter (fun t => DbTask.project_id t =? pid) l))
      (Some s).
Proof.
  induction l as [|t l IH]; simpl; [reflexivity|].
  destruct (DbTask.project_id t =? pid) eqn:Ep;
    destruct (col_eq_status (DbTask.task_status t) s) eqn:Es; simpl;
    rewrite ?Ep; simpl.
  - apply col_eq_status_true in Es.
    destruct (option_status_eq_dec (DbTask.task_status t) (Some s)); congruence.
  - destruct (option_status_eq_dec (DbTask.task_status t) (Some s)) as [E|E];
      [|exact IH].
    apply col_eq_status_true in E. congruence.
  - exact IH.
  - exact IH.
Qed.

Lemma update_task_status_tasks k s db :
  tasks (update_task_status k s db)
  = map (fun t => if key_eqb (DbTask.key t) k
                  then DbTask.set_task_status (Some s) t else t) (tasks db).
Proof. reflexivity. Qed.

(** Marking the keys [ks] rewrites exactly the rows whose key is in [ks]. *)
Lemma mark_tasks_tasks ks s db :
  tasks (mark_tasks ks s db)
  = map (fun t => if key_mem (DbTask.key t) ks
                  then DbTask.set_task_status (Some s) t else t) (tasks db).
Proof.
  revert db. induction ks as [|k ks IH]; intros db; simpl.
  - symmetry. apply map_id.
  - unfold mark_tasks in *. simpl. rewrite IH, update_task_status_tasks, map_map.
    apply map_ext. intros t. unfold key_mem. simpl.
    destruct (key_eqb (DbTask.key t) k) eqn:E; simpl.
    + destruct (existsb _ ks); reflexivity.
    + reflexivity.
Qed.

Lemma in_project_tasks db project t :
  In t (project_tasks db project)
  <-> In t (tasks db) /\ DbTask.project_id t = DbProject.id project.
Proof. unfold project_tasks. rewrite filter_In, Z.eqb_eq. reflexivity. Qed.

(** Under the primary key, the rows of a project selected by a duplicate-free
    list of their keys are as many as the keys. *)
Lemma marked_rows_count db project ks :
  tasks_pk db -> NoDup ks ->
  (forall k, In k ks ->
     exists t, In t (project_tasks db project) /\ DbTask.key t = k) ->
  List.length
    (filter (fun t => (DbTask.project_id t =? DbProject.id project)
                      && key_mem (DbTask.key t) ks) (tasks db))
  = List.length ks.
Proof.
  intros Hpk Hnd Hks.
  rewrite <- (length_map DbTask.key).
  apply Permutation_length, NoDup_Permutation; [now apply NoDup_map_filter| assumption |].
  intros k. rewrite in_map_iff. split.
  - intros [t [<- Hin]]. apply filter_In in Hin. destruct Hin as [_ Hin].
    apply andb_true_iff in Hin. now apply key_mem_In.
  - intros Hin. destruct (Hks k Hin) as [t [Ht Hk]].
    apply in_project_tasks in Ht. destruct Ht as [Ht Hp].
    exists t. split; [assumption|]. apply filter_In. split; [assumption|].
    apply andb_true_iff. split; [now apply Z.eqb_eq|].
    apply key_mem_In. now rewrite Hk.
Qed.

Lemma tasks_mapped_after_mark ks s db project :
  tasks_mapped (mark_tasks ks s db) project
  = List.length
      (filter (fun t => (DbTask.project_id t =? DbProject.id project)
                        && (if key_mem (DbTask.key t) ks
                            then TaskStatus.eqb s TaskStatus.MAPPED
                            else col_eq_status (DbTask.task_status t) TaskStatus.MAPPED))
              (tasks db)).
Proof.
  unfold tasks_mapped, Query.count, Query.with_parent, Query.filter_status,
    Query.query_DbTask.
  rewrite mark_tasks_tasks.
  induction (tasks db) as [|t l IH]; simpl; [reflexivity|].
  destruct (key_mem (DbTask.key t) ks); simpl;
    [destruct (TaskStatus.eqb s TaskStatus.MAPPED)
    |destruct (col_eq_status (DbTask.task_status t) TaskStatus.MAPPED)];
    simpl; destruct (DbTask.project_id t =? DbProject.id project); simpl;
    congruence.
Qed.

(** C2. The derived counts [tasks_mapped], [tasks_validated] and [tasks_bad]
    of a project are the numbers of the project's own tasks whose current
    status is MAPPED, VALIDATED and BAD; they are functions of the current
    task rows alone, so once a duplicate-free set of the project's tasks is
    marked MAPPED (no other task of the project being MAPPED) the mapped
    count is the size of that set, and it is 0 once the same tasks have moved
    to VALIDATED. *)
Theorem derived_counts_follow_task_state :
  forall (db : Db) (project : DbProject.t),
    (tasks_mapped db project = count_by_status db project TaskStatus.MAPPED /\
     tasks_validated db project = count_by_status db project TaskStatus.VALIDATED /\
     tasks_bad db project = count_by_status db project TaskStatus.BAD) /\
    (forall ks : list (Z * Z),
       tasks_pk db ->
       NoDup ks ->
       (forall k, In k ks ->
          exists t, In t (project_tasks db project) /\ DbTask.key t = k) ->
       (forall t, In t (project_tasks db project) ->
          ~ In (DbTask.key t) ks ->
          DbTask.task_status t <> Some TaskStatus.MAPPED) ->
       tasks_mapped (mark_tasks ks TaskStatus.MAPPED db) project = List.length ks /\
       tasks_mapped
         (mark_tasks ks TaskStatus.VALIDATED (mark_tasks ks TaskStatus.MAPPED db))
         project = 0%nat).
Proof.
  intros db project. split.
  - unfold tasks_mapped, tasks_validated, tasks_bad, count_by_status,
      project_tasks, Query.count, Query.with_parent, Query.filter_status,
      Query.query_DbTask.
    repeat split; apply status_query_count.
  - intros ks Hpk Hnd Hks Hother.
    assert (Hrest : forall t, In t (tasks db) ->
              DbTask.project_id t = DbProject.id project ->
              key_mem (DbTask.key t) ks = false ->
              col_eq_status (DbTask.task_status t) TaskStatus.MAPPED = false).
    { intros t Ht Hp Hk.
      destruct (col_eq_status (DbTask.task_status t) TaskStatus.MAPPED) eqn:E;
        [|reflexivity].
      exfalso. apply (Hother t).
      - apply in_project_tasks. now split.
      - intros Hin. apply key_mem_In in Hin. congruence.
      - now apply col_eq_status_true. }
    split.
    + rewrite tasks_mapped_after_mark, <- (marked_rows_count db project ks Hpk Hnd Hks).
      f_equal. apply filter_ext_in. intros t Ht.
      destruct (DbTask.project_id t =? DbProject.id project) eqn:Ep; simpl;
        [|reflexivity].
      destruct (key_mem (DbTask.key t) ks) eqn:Ek; [reflexivity|].
      apply Hrest; [assumption | now apply Z.eqb_eq | assumption].
    + rewrite tasks_mapped_after_mark, mark_tasks_tasks, filter_map_length.
      rewrite filter_none; [reflexivity|].
      intros t Ht. cbv beta.
      destruct (key_mem (DbTask.key t) ks) eqn:Ek.
      * change (DbTask.key (DbTask.set_task_status (Some TaskStatus.MAPPED) t))
          with (DbTask.key t).
        rewrite Ek. apply andb_false_r.
      * rewrite Ek.
        destruct (DbTask.project_id t =? DbProject.id project) eqn:Ep;
          [|reflexivity].
        simpl. apply Hrest; [assumption | now apply Z.eqb_eq | assumption].
Qed.

(** Three of the five tasks of a project marked MAPPED, then VALIDATED. *)
Lemma derived_counts_three_of_five :
  List.length (project_tasks five_tasks_db (sample_project 1)) = 5%nat /\
  tasks_mapped
    (mark_tasks [(1, 1); (2, 1); (3, 1)] TaskStatus.MAPPED five_tasks_db)
    (sample_project 1) = 3%nat /\
  tasks_mapped
    (mark_tasks [(1, 1); (2, 1); (3, 1)] TaskStatus.VALIDATED
       (mark_tasks [(1, 1); (2, 1); (3, 1)] TaskStatus.MAPPED five_tasks_db))
    (sample_project 1) = 0%nat.
Proof.
  split; [reflexivity|].
  apply (proj2 (derived_counts_follow_task_state five_tasks_db (sample_project 1))
           [(1, 1); (2, 1); (3, 1)]).
  - unfold tasks_pk. prove_NoDup.
  - prove_NoDup.
  - intros k [<-|[<-|[<-|[]]]];
      [exists (sample_task 1 1 TaskStatus.READY)
      |exists (sample_task 2 1 TaskStatus.READY)
      |exists (sample_task 3 1 TaskStatus.READY)];
      (split; [simpl; tauto | reflexivity]).
  - simpl. intros t [<-|[<-|[<-|[<-|[<-|[]]]]]] _; discriminate.
Defined.

(** ** Order of a task's history *)

Lemma insert_desc_Permutation h l : Permutation (insert_desc h l) (h :: l).
Proof.
  induction l as [|x l IH]; simpl; [reflexivity|].
  destruct (DbTaskHistory.action_date x <=? DbTaskHistory.action_date h);
    [reflexivity|].
  rewrite IH. apply perm_swap.
Qed.

Lemma insert_desc_sorted h l :
  StronglySorted later_first l -> StronglySorted later_first (insert_desc h l).
Proof.
  induction 1 as [|x l Hs IH Hall]; simpl.
  - repeat constructor.
  - destruct (DbTaskHistory.action_date x <=? DbTaskHistory.action_date h) eqn:E.
    + apply Z.leb_le in E. constructor; [now constructor|].
      constructor; [exact E|].
      eapply Forall_impl; [|exact Hall]. unfold later_first. intros; lia.
    + apply Z.leb_gt in E. constructor; [exact IH|].
      eapply Permutation_Forall; [symmetry; apply insert_desc_Permutation|].
      constructor; [unfold later_first; lia | exact Hall].
Qed.

Lemma order_by_desc_Permutation l : Permutation (order_by_desc_action_date l) l.
Proof.
  induction l as [|h l IH]; simpl; [reflexivity|].
  rewrite insert_desc_Permutation. now constructor.
Qed.

Lemma order_by_desc_sorted l :
  StronglySorted later_first (order_by_desc_action_date l).
Proof.
  induction l as [|h l IH]; simpl; [constructor | now apply insert_desc_sorted].
Qed.

(** C8. Whenever the history of a task is read through [DbTask.task_history],
    it holds exactly the history rows attached to the task, ordered by action
    date in descending order: every row is at least as recent as all the rows
    after it, and the first row is the most recent action. *)
Theorem task_history_latest_first :
  forall (db : Db) (t : DbTask.t),
    StronglySorted later_first (task_history_of db t) /\
    Permutation (task_history_of db t)
                (filter (attached_history t) (task_history db)) /\
    (forall h0 rest, task_history_of db t = h0 :: rest ->
       forall h, In h (task_history db) -> attached_history t h = true ->
         DbTaskHistory.action_date h <= DbTaskHistory.action_date h0).
Proof.
  intros db t. unfold task_history_of.
  pose proof (order_by_desc_sorted (filter (attached_history t) (task_history db)))
    as Hs.
  pose proof (order_by_desc_Permutation (filter (attached_history t) (task_history db)))
    as Hp.
  repeat split; try assumption.
  intros h0 rest E h Hin Hatt. rewrite E in Hs, Hp.
  assert (Hmem : In h (h0 :: rest)).
  { eapply Permutation_in; [symmetry; exact Hp|]. apply filter_In. now split. }
  inversion Hs as [|? ? _ Hall]; subst.
  destruct Hmem as [-> | Hmem]; [lia|].
  rewrite Forall_forall in Hall. exact (Hall h Hmem).
Qed.

(** ** Foreign keys, row by row *)

Lemma foreign_keys_ok_iff db : foreign_keys_ok db = true <-> foreign_keys db.
Proof.
  unfold foreign_keys_ok. rewrite !andb_true_iff, !forallb_forall. split.
  - intros [[[[[[[[H1 H2] H3] H4] H5] H6] H7] H8] H9]. now constructor.
  - intros [H1 H2 H3 H4 H5 H6 H7 H8 H9]. tauto.
Qed.

Lemma task_key_exists db tid pid :
  key_mem (tid, pid) (task_keys db) = true ->
  exists t, In t (tasks db) /\ DbTask.id t = tid /\ DbTask.project_id t = pid.
Proof.
  intros H. apply key_mem_In in H. unfold task_keys in H.
  apply in_map_iff in H. destruct H as [t [E Hin]].
  exists t. unfold DbTask.key in E. inversion E. auto.
Qed.


(** Two projects that each have a task numbered 1. *)
Lemma shared_task_id_db_valid :
  foreign_keys_ok
    (with_tasks [sample_task 1 1 TaskStatus.READY; sample_task 1 2 TaskStatus.READY]
       (with_projects [sample_project 1; sample_project 2] empty_db)) = true /\
  tasks_pk
    (with_tasks [sample_task 1 1 TaskStatus.READY; sample_task 1 2 TaskStatus.READY]
       (with_projects [sample_project 1; sample_project 2] empty_db)).
Proof. split; [reflexivity | unfold tasks_pk; prove_NoDup]. Qed.

(** C5. A task is identified by the pair [(id, project_id)]: under the
    primary key two task rows with the same pair are the same row, while the
    same id can be used under two projects.  Every child table that
    references a task (task history, task invalidation history, features)
    does so through the composite foreign key on [(task_id, project_id)], so
    a child row carrying a task id and a project id is attached to a task row
    with that id under that very project; it cannot name a task id that
    exists only under a different project.  An invalidation record always
    carries both; [task_history.project_id], [features.project_id] and
    [features.task_id] are nullable, and a row where one is NULL is outside
    this statement. *)
Theorem task_references_are_composite :
  (exists db t1 t2,
      foreign_keys_ok db = true /\ tasks_pk db /\
      In t1 (tasks db) /\ In t2 (tasks db) /\
      DbTask.id t1 = DbTask.id t2 /\
      DbTask.project_id t1 <> DbTask.project_id t2) /\
  (forall db : Db,
      foreign_keys_ok db = true ->
      tasks_pk db ->
      (forall t1 t2, In t1 (tasks db) -> In t2 (tasks db) ->
         DbTask.id t1 = DbTask.id t2 ->
         DbTask.project_id t1 = DbTask.project_id t2 -> t1 = t2) /\
      (forall h p, In h (task_history db) ->
         DbTaskHistory.project_id h = Some p ->
         exists t, In t (tasks db) /\
                   DbTask.id t = DbTaskHistory.task_id h /\
                   DbTask.project_id t = p) /\
      (forall r, In r (task_invalidation_history db) ->
         exists t, In t (tasks db) /\
                   DbTask.id t = DbTaskInvalidationHistory.task_id r /\
                   DbTask.project_id t = DbTaskInvalidationHistory.project_id r) /\
      (forall f tid p, In f (features db) ->
         DbFeatures.task_id f = Some tid ->
         DbFeatures.project_id f = Some p ->
         exists t, In t (tasks db) /\ DbTask.id t = tid /\ DbTask.project_id t = p) /\
      (forall h p, In h (task_history db) ->
         DbTaskHistory.project_id h = Some p ->
         ~ (forall t, In t (tasks db) ->
              DbTask.id t = DbTaskHistory.task_id h -> DbTask.project_id t <> p))).
Proof.
  split.
  - exists (with_tasks
              [sample_task 1 1 TaskStatus.READY; sample_task 1 2 TaskStatus.READY]
              (with_projects [sample_project 1; sample_project 2] empty_db)),
      (sample_task 1 1 TaskStatus.READY), (sample_task 1 2 TaskStatus.READY).
    destruct shared_task_id_db_valid as [Hfk Hpk].
    repeat split; try assumption; simpl; auto; discriminate.
  - intros db Hfk Hpk. apply foreign_keys_ok_iff in Hfk.
    assert (Hhist : forall h p, In h (task_history db) ->
              DbTaskHistory.project_id h = Some p ->
              exists t, In t (tasks db) /\
                        DbTask.id t = DbTaskHistory.task_id h /\
                        DbTask.project_id t = p).
    { intros h p Hin Hp. pose proof (fk_of_task_history db Hfk h Hin) as H.
      unfold task_history_fk in H. rewrite Hp in H. simpl in H.
      apply andb_true_iff in H. destruct H as [_ H].
      now apply task_key_exists. }
    repeat split.
    + intros t1 t2 H1 H2 Eid Ep.
      apply (NoDup_map_inj_on DbTask.key (tasks db)); try assumption.
      unfold DbTask.key. congruence.
    + exact Hhist.
    + intros r Hin.
      pose proof (fk_of_task_invalidation_history db Hfk r Hin) as H.
      unfold task_invalidation_history_fk in H. simpl in H.
      rewrite !andb_true_iff in H. destruct H as [[_ H] _].
      now apply task_key_exists.
    + intros f tid p Hin Ht Hp. pose proof (fk_of_features db Hfk f Hin) as H.
      unfold features_fk in H. rewrite Ht, Hp in H. simpl in H.
      apply andb_true_iff in H. destruct H as [_ H].
      now apply task_key_exists.
    + intros h p Hin Hp Hnone.
      destruct (Hhist h p Hin Hp) as [t [Ht [Eid Eproj]]].
      exact (Hnone t Ht Eid Eproj).
Qed.

(** ** Cascading deletes *)

Lemma commit_Return db' db'' :
  commit db' = Return db'' -> db'' = db' /\ foreign_keys_ok db' = true.
Proof.
  unfold commit. destruct (foreign_keys_ok db'); [|discriminate].
  intros E. inversion E. auto.
Qed.


Lemma mem_Z_map_In {A : Type} (f : A -> Z) (z : Z) (l : list A) :
  mem_Z z (map f l) = true <-> exists x, In x l /\ f x = z.
Proof.
  rewrite mem_Z_In, in_map_iff. split; intros [x [H1 H2]]; exists x; tauto.
Qed.

(** A history row is attached to a task exactly when it carries its key. *)
Lemma attached_history_key t h :
  attached_history t h = true
  <-> DbTaskHistory.task_id h = DbTask.id t
      /\ DbTaskHistory.project_id h = Some (DbTask.project_id t).
Proof.
  unfold attached_history.
  now rewrite andb_true_iff, Z.eqb_eq, col_eq_Z_true.
Qed.

Lemma history_of_tasks_true ts h :
  history_of_tasks ts h = true
  <-> exists t, In t ts /\ attached_history t h = true.
Proof. unfold history_of_tasks. apply existsb_exists. Qed.





Lemma project_id_deleted db p q :
  mem_Z q (project_ids (delete_project_cascade p db)) = true ->
  q <> DbProject.id p.
Proof.
  unfold project_ids. rewrite mem_Z_map_In. intros [x [Hin E]]. simpl in Hin.
  apply filter_In in Hin. destruct Hin as [_ Hin].
  apply negb_true_iff, Z.eqb_neq in Hin. congruence.
Qed.






(** *** Deleting one task *)





(** *** Which deletes the foreign keys accept *)

Lemma commit_Raise db :
  ~ foreign_keys db ->
  commit db = Raise (IntegrityError "foreign key violation").
Proof.
  intros H. unfold commit. destruct (foreign_keys_ok db) eqn:E; [|reflexivity].
  exfalso. apply H. now apply foreign_keys_ok_iff.
Qed.

Lemma same_task_false t t' :
  same_task t t' = false <-> DbTask.key t' <> DbTask.key t.
Proof.
  unfold same_task. split.
  - intros E Hk. rewrite Hk, key_eqb_refl in E. discriminate.
  - intros Hne. destruct (key_eqb (DbTask.key t') (DbTask.key t)) eqn:E;
      [|reflexivity].
    apply key_eqb_eq in E. contradiction.
Qed.







(** ** The sample database *)

Lemma sample_db_primary_keys : primary_keys_ok sample_db.
Proof. constructor; try unfold tasks_pk; prove_NoDup. Qed.


(** Task 1 of project 1 reads its two history rows, the later one first. *)
Lemma task_history_latest_first_sample :
  task_history_of sample_db (sample_task 1 1 TaskStatus.MAPPED)
  = [sample_history 2 1 1 TaskAction.MAPPED 20;
     sample_history 1 1 1 TaskAction.LOCK_FOR_MAPPING 10] /\
  DbTaskHistory.action_date (sample_history 1 1 1 TaskAction.LOCK_FOR_MAPPING 10)
  <= DbTaskHistory.action_date (sample_history 2 1 1 TaskAction.MAPPED 20).
Proof.
  split; [reflexivity|].
  apply (proj2 (proj2 (task_history_latest_first sample_db
                         (sample_task 1 1 TaskStatus.MAPPED)))
           (sample_history 2 1 1 TaskAction.MAPPED 20)
           [sample_history 1 1 1 TaskAction.LOCK_FOR_MAPPING 10]
           eq_refl
           (sample_history 1 1 1 TaskAction.LOCK_FOR_MAPPING 10)).
  - simpl; tauto.
  - reflexivity.
Defined.

(** History row 5 names task 1 under project 2, and that task exists under
    project 2. *)
Lemma task_references_sample :
  exists t, In t (tasks sample_db) /\
            DbTask.id t = 1 /\ DbTask.project_id t = 2.
Proof.
  apply (proj1 (proj2 (proj2 task_references_are_composite sample_db eq_refl
                         (pk_tasks sample_db sample_db_primary_keys)))
           (sample_history 5 1 2 TaskAction.LOCK_FOR_MAPPING 12) 2).
  - simpl; tauto.
  - reflexivity.
Defined.

(** History row 7 and feature 2 pass every foreign key although the task
    ids they carry belong to no task of theirs: task 2 exists under project 1
    only and the history row is attached to no task, and no task has the
    id 99. *)
Lemma task_reference_without_project_is_unchecked :
  primary_keys_ok unchecked_rows_db /\
  foreign_keys_ok unchecked_rows_db = true /\
  exists h f,
    In h (task_history unchecked_rows_db) /\
    DbTaskHistory.task_id h = 2 /\
    DbTaskHistory.project_id h = None /\
    (forall t, In t (tasks unchecked_rows_db) ->
       DbTask.id t = 2 -> DbTask.project_id t = 1) /\
    (forall t, In t (tasks unchecked_rows_db) -> attached_history t h = false) /\
    In f (features unchecked_rows_db) /\
    DbFeatures.task_id f = Some 99 /\
    (forall t, In t (tasks unchecked_rows_db) -> DbTask.id t <> 99).
Proof.
  split; [constructor; try unfold tasks_pk; prove_NoDup|].
  split; [reflexivity|].
  exists (DbTaskHistory.mk 7 None 2 TaskAction.COMMENT None 50 7),
         (DbFeatures.mk 2 None (Some 99)).
  split; [simpl; tauto|]. split; [reflexivity|]. split; [reflexivity|].
  split; [intros t [<-|[<-|[<-|[]]]]; simpl; intros E; congruence|].
  split; [intros t [<-|[<-|[<-|[]]]]; reflexivity|].
  split; [simpl; tauto|]. split; [reflexivity|].
  intros t [<-|[<-|[<-|[]]]]; discriminate.
Qed.



(** ** Organisation routes *)

(** A lookup over rows that all fail the test finds nothing. *)
Lemma find_nothing {A : Type} (test : A -> bool) (rows : list A) :
  (forall r, In r rows -> test r = false) -> find test rows = None.
Proof.
  induction rows as [|r rows IH]; simpl; intros Hfail; [reflexivity|].
  rewrite (Hfail r (or_introl eq_refl)). apply IH.
  intros r' Hin. apply Hfail. now right.
Qed.

Lemma get_organisation_by_id_missing db organization_id :
  (forall o, In o (organisations db) -> DbOrganisation.id o <> organization_id) ->
  organization_crud.get_organisation_by_id db organization_id = None.
Proof.
  intros H. apply find_nothing. intros o Hin. apply Z.eqb_neq. now apply H.
Qed.


Lemma get_organisation_by_name_present db name :
  (exists o, In o (organisations db) /\ DbOrganisation.name o = name) ->
  exists o, organization_crud.get_organisation_by_name db name = Some o.
Proof.
  intros [o [Hin E]].
  destruct (organization_crud.get_organisation_by_name db name) as [o'|] eqn:F;
    [eauto|].
  unfold organization_crud.get_organisation_by_name in F.
  pose proof (find_none _ _ F o Hin) as H. simpl in H.
  apply String.eqb_neq in H. contradiction.
Qed.

(** C9. When no organisation has the requested id, fetching the organisation
    detail and deleting the organisation both raise the HTTP 404 error
    "Organization not found" and leave the database as it was; when the
    organisation exists, the detail endpoint returns it. *)
Theorem organisation_not_found :
  forall (db : Db) (organization_id : Z),
    ((forall o, In o (organisations db) ->
        DbOrganisation.id o <> organization_id) ->
     organization_routes.get_organization_detail db organization_id
     = (db, Raise (HTTPException 404 "Organization not found")) /\
     organization_routes.delete_organisations db organization_id
     = (db, Raise (HTTPException 404 "Organization not found"))) /\
    (forall o, In o (organisations db) ->
       DbOrganisation.id o = organization_id ->
       exists o', In o' (organisations db) /\
                  DbOrganisation.id o' = organization_id /\
                  organization_routes.get_organization_detail db organization_id
                  = (db, Return o')).
Proof.
  intros db organization_id. split.
  - intros Hmissing.
    unfold organization_routes.get_organization_detail,
      organization_routes.delete_organisations.
    rewrite (get_organisation_by_id_missing db organization_id Hmissing).
    split; reflexivity.
  - intros o Hin Hid. unfold organization_routes.get_organization_detail.
    destruct (organization_crud.get_organisation_by_id db organization_id)
      as [o'|] eqn:F.
    + exists o'. unfold organization_crud.get_organisation_by_id in F.
      apply find_some in F. destruct F as [Hin' E]. apply Z.eqb_eq in E. auto.
    + unfold organization_crud.get_organisation_by_id in F.
      pose proof (find_none _ _ F o Hin) as H. simpl in H.
      apply Z.eqb_neq in H. contradiction.
Qed.

(** No organisation at all: id 7 is not found. *)
Lemma organisation_not_found_empty :
  organization_routes.get_organization_detail empty_db 7
  = (empty_db, Raise (HTTPException 404 "Organization not found")) /\
  organization_routes.delete_organisations empty_db 7
  = (empty_db, Raise (HTTPException 404 "Organization not found")).
Proof.
  apply (proj1 (organisation_not_found empty_db 7)).
  intros o [].
Defined.

(** C10. Whatever [update_organization_info] does, the update endpoint
    returns what it returns and turns every exception it raises, the one for
    a missing organisation included, into the HTTP 400 error
    "Error updating organization: " followed by the text of the exception;
    it never raises a 404, while for the same missing id the detail and
    delete endpoints raise 404. *)
Theorem update_organization_errors_are_400 :
  forall (A : Type) (py_str : Exception -> string)
         (update_organization_info :
            Db -> Z -> option string -> option string -> option string ->
            option string -> Db * result A)
         (db : Db) (organization_id : Z)
         (name description url logo : option string),
    (forall db' e,
       update_organization_info db organization_id name description url logo
       = (db', Raise e) ->
       organization_routes.update_organization py_str update_organization_info
         db organization_id name description url logo
       = (db', Raise (HTTPException 400
                        ("Error updating organization: " ++ py_str e)%string))) /\
    (forall db' organization,
       update_organization_info db organization_id name description url logo
       = (db', Return organization) ->
       organization_routes.update_organization py_str update_organization_info
         db organization_id name description url logo
       = (db', Return organization)) /\
    (forall db' status_code detail,
       organization_routes.update_organization py_str update_organization_info
         db organization_id name description url logo
       = (db', Raise (HTTPException status_code detail)) ->
       status_code = 400) /\
    (forall db' e,
       (forall o, In o (organisations db) ->
          DbOrganisation.id o <> organization_id) ->
       update_organization_info db organization_id name description url logo
       = (db', Raise e) ->
       (exists detail,
          organization_routes.update_organization py_str update_organization_info
            db organization_id name description url logo
          = (db', Raise (HTTPException 400 detail))) /\
       organization_routes.get_organization_detail db organization_id
       = (db, Raise (HTTPException 404 "Organization not found")) /\
       organization_routes.delete_organisations db organization_id
       = (db, Raise (HTTPException 404 "Organization not found"))).
Proof.
  intros A py_str update_info db organization_id name description url logo.
  unfold organization_routes.update_organization.
  split; [|split; [|split]].
  - intros db' e E. now rewrite E.
  - intros db' organization E. now rewrite E.
  - intros db' status_code detail.
    destruct (update_info db organization_id name description url logo)
      as [db1 [organization|e]]; intros E; inversion E; reflexivity.
  - intros db' e Hmissing E. rewrite E. split; [eauto|].
    unfold organization_routes.get_organization_detail,
      organization_routes.delete_organisations.
    rewrite (get_organisation_by_id_missing db organization_id Hmissing).
    split; reflexivity.
Qed.

(** An [update_organization_info] that raises its own 404 for a missing
    organisation: the endpoint answers 400. *)
Lemma update_organization_missing_is_400 :
  organization_routes.update_organization
    (fun e => match e with
              | HTTPException _ detail => detail
              | IntegrityError detail => detail
              | OtherException detail => detail
              end)
    (fun db (_ : Z) (_ _ _ _ : option string) =>
       (db, @Raise DbOrganisation.t (HTTPException 404 "Organization not found")))
    empty_db 7 (Some "HOT"%string) None None None
  = (empty_db,
     Raise (HTTPException 400
              "Error updating organization: Organization not found")).
Proof.
  apply (proj1 (update_organization_errors_are_400 DbOrganisation.t
                  (fun e => match e with
                            | HTTPException _ detail => detail
                            | IntegrityError detail => detail
                            | OtherException detail => detail
                            end)
                  (fun db (_ : Z) (_ _ _ _ : option string) =>
                     (db, Raise (HTTPException 404 "Organization not found")))
                  empty_db 7 (Some "HOT"%string) None None None)
           empty_db (HTTPException 404 "Organization not found")).
  reflexivity.
Defined.


(** What the insert does, case by case. *)
Lemma insert_organisation_cases db organisation_id name slug logo description url :
  (exists e,
     insert_organisation db organisation_id name slug logo description url
     = Raise e) \/
  (insert_organisation db organisation_id name slug logo description url
   = Return (with_organisations
               (organisations db
                ++ [DbOrganisation.mk organisation_id name slug
                      logo description url]) db) /\
   (char_length name <= 512)%nat /\ (char_length slug <= 255)%nat /\
   (forall o, In o (organisations db) -> DbOrganisation.id o <> organisation_id) /\
   (forall o, In o (organisations db) -> DbOrganisation.name o <> name) /\
   (forall o, In o (organisations db) -> DbOrganisation.slug o <> slug)).
Proof.
  unfold insert_organisation.
  destruct ((512 <? char_length name)%nat || (255 <? char_length slug)%nat)
    eqn:Elen; [left; eauto|].
  destruct (mem_Z organisation_id (organisation_ids db)) eqn:Eid;
    [left; eauto|].
  destruct (existsb (fun o => String.eqb (DbOrganisation.name o) name)
                    (organisations db)) eqn:Ename; [left; eauto|].
  destruct (existsb (fun o => String.eqb (DbOrganisation.slug o) slug)
                    (organisations db)) eqn:Eslug; [left; eauto|].
  right. apply orb_false_iff in Elen. destruct Elen as [E1 E2].
  apply Nat.ltb_ge in E1, E2.
  repeat split; try assumption.
  - intros o Hin E.
    assert (mem_Z organisation_id (organisation_ids db) = true); [|congruence].
    apply mem_Z_In. rewrite <- E. unfold organisation_ids. now apply in_map.
  - intros o Hin. apply String.eqb_neq.
    exact (proj1 (existsb_false_iff _ _) Ename o Hin).
  - intros o Hin. apply String.eqb_neq.
    exact (proj1 (existsb_false_iff _ _) Eslug o Hin).
Qed.









(** ** The state machine *)

Import StateMachine.

Lemma action_in_In action l : action_in action l = true <-> In action l.
Proof.
  unfold action_in. rewrite existsb_exists. split.
  - intros [a [Hin E]]. destruct (TaskAction.eq_dec a action); [now subst|discriminate].
  - intros Hin. exists action. split; [assumption|].
    destruct (TaskAction.eq_dec action action); congruence.
Qed.

Lemma transition_Some policy status action new_status :
  transition policy status action = Some new_status
  <-> In action (allowed_actions status)
      /\ new_status = resulting_status policy status action.
Proof.
  unfold transition. destruct (action_in action (allowed_actions status)) eqn:E.
  - apply action_in_In in E. split; [intros F; inversion F; auto|].
    intros [_ ->]; reflexivity.
  - split; [discriminate|]. intros [Hin _]. apply action_in_In in Hin. congruence.
Qed.

Lemma update_task_key new_status action actor t :
  DbTask.key (update_task new_status action actor t) = DbTask.key t.
Proof. destruct action; reflexivity. Qed.


(** Reading a task after the rows with a key were rewritten in place. *)
Lemma find_after_update (g : DbTask.t -> DbTask.t) k l :
  (forall r, DbTask.key (g r) = DbTask.key r) ->
  find (fun r => key_eqb (DbTask.key r) k) (map g l)
  = option_map g (find (fun r => key_eqb (DbTask.key r) k) l).
Proof.
  intros Hkey. induction l as [|r l IH]; simpl; [reflexivity|].
  rewrite Hkey. destruct (key_eqb (DbTask.key r) k); [reflexivity | exact IH].
Qed.






(** ** Open invalidation records *)

Lemma filter_length_mono {A : Type} (p q : A -> bool) (l : list A) :
  (forall x, In x l -> p x = true -> q x = true) ->
  (List.length (filter p l) <= List.length (filter q l))%nat.
Proof.
  induction l as [|x l IH]; simpl; intros H; [lia|].
  assert (IH' : (List.length (filter p l) <= List.length (filter q l))%nat).
  { apply IH. intros y Hy. apply H. now right. }
  destruct (p x) eqn:Ep.
  - rewrite (H x (or_introl eq_refl) Ep). simpl. lia.
  - destruct (q x); simpl; lia.
Qed.

Lemma filter_singleton_length {A : Type} (p : A -> bool) (x : A) :
  (List.length (@nil A) + List.length (filter p [x]) <= 1)%nat.
Proof. simpl. destruct (p x); simpl; lia. Qed.

Section Resolve.

(** [resolve_open f kt] with an [f] that closes the record it rewrites. *)
Variable f : DbTaskInvalidationHistory.t -> DbTaskInvalidationHistory.t.
Variable kt : Z * Z.
Hypothesis f_closes : forall r, DbTaskInvalidationHistory.is_open (f r) = false.

Local Abbreviation resolve := (resolve_open f kt).

Lemma resolve_open_only_if_open k r :
  DbTaskInvalidationHistory.is_open (resolve r) && for_task k (resolve r) = true ->
  DbTaskInvalidationHistory.is_open r && for_task k r = true.
Proof.
  unfold resolve_open.
  destruct (DbTaskInvalidationHistory.is_open r && for_task kt r); [|auto].
  now rewrite f_closes.
Qed.

Lemma resolve_leaves_none_open r :
  DbTaskInvalidationHistory.is_open (resolve r) && for_task kt (resolve r) = false.
Proof.
  unfold resolve_open.
  destruct (DbTaskInvalidationHistory.is_open r && for_task kt r) eqn:E;
    [now rewrite f_closes | exact E].
Qed.

Lemma resolve_open_count k l :
  (List.length
     (filter (fun r => DbTaskInvalidationHistory.is_open r && for_task k r)
             (map resolve l))
   <= List.length
        (filter (fun r => DbTaskInvalidationHistory.is_open r && for_task k r) l))%nat.
Proof.
  rewrite filter_map_length. apply filter_length_mono.
  intros r _. apply resolve_open_only_if_open.
Qed.

Lemma resolve_none_open l :
  filter (fun r => DbTaskInvalidationHistory.is_open r && for_task kt r)
         (map resolve l) = [].
Proof.
  apply filter_none. intros r' Hin. apply in_map_iff in Hin.
  destruct Hin as [r [<- _]]. apply resolve_leaves_none_open.
Qed.

Lemma resolve_keeps_closed l r :
  In r l -> DbTaskInvalidationHistory.is_open r = false -> In r (map resolve l).
Proof.
  intros Hin Hclosed. apply in_map_iff. exists r. split; [|assumption].
  unfold resolve_open. now rewrite Hclosed.
Qed.

End Resolve.

Lemma update_invalidation_history_open now t action actor history_id l k :
  (List.length
     (filter (fun r => DbTaskInvalidationHistory.is_open r && for_task k r) l)
   <= 1)%nat ->
  (List.length
     (filter (fun r => DbTaskInvalidationHistory.is_open r && for_task k r)
        (update_invalidation_history now t action actor history_id l))
   <= 1)%nat.
Proof.
  intros Hle.
  assert (Hclose : forall r, DbTaskInvalidationHistory.is_open (close_record now r)
                             = false) by reflexivity.
  assert (Hvalidate : forall r, DbTaskInvalidationHistory.is_open
                                  (validate_record now actor r) = false)
    by reflexivity.
  destruct action; simpl; try exact Hle.
  - (* VALIDATED *)
    eapply Nat.le_trans; [|exact Hle].
    apply (resolve_open_count (validate_record now actor) (DbTask.key t)).
    exact Hvalidate.
  - (* MARK_BAD *)
    rewrite filter_app, length_app.
    match goal with
    | |- context [filter _ [?r]] => set (fresh := r)
    end.
    assert (Hfresh : for_task k fresh = key_eqb (DbTask.key t) k) by reflexivity.
    destruct (key_eqb (DbTask.key t) k) eqn:Ek.
    + apply key_eqb_eq in Ek. subst k.
      rewrite (resolve_none_open (close_record now) (DbTask.key t));
        [|exact Hclose].
      apply (filter_singleton_length _ fresh).
    + replace (filter (fun r => DbTaskInvalidationHistory.is_open r && for_task k r)
                      [fresh]) with (@nil DbTaskInvalidationHistory.t)
        by (simpl; rewrite Hfresh, ?andb_false_r; reflexivity).
      simpl. rewrite Nat.add_0_r.
      eapply Nat.le_trans; [|exact Hle].
      apply (resolve_open_count (close_record now) (DbTask.key t)).
      exact Hclose.
Qed.

Lemma update_invalidation_history_keeps_closed now t action actor history_id l r :
  In r l -> DbTaskInvalidationHistory.is_open r = false ->
  In r (update_invalidation_history now t action actor history_id l).
Proof.
  intros Hin Hclosed. destruct action; simpl; try assumption.
  - now apply resolve_keeps_closed.
  - apply in_or_app. left. now apply resolve_keeps_closed.
Qed.

(** What a call leaves in the invalidation table. *)
Lemma step_invalidation_history policy db c :
  task_invalidation_history (step policy db c) = task_invalidation_history db \/
  exists t history_id,
    task_invalidation_history (step policy db c)
    = update_invalidation_history (call_now c) t (call_action c) (call_actor c)
        history_id (task_invalidation_history db).
Proof.
  unfold step, apply_action.
  destruct (find_task db (call_task_id c) (call_project_id c)) as [t|];
    [|now left].
  destruct (DbTask.task_status t) as [status|]; [|now left].
  destruct (transition policy status (call_action c)) as [new_status|];
    [|now left].
  destruct (lock_conflict t (call_action c) (call_actor c)); [now left|].
  right. eexists _, _. reflexivity.
Qed.

Lemma step_single_open policy db c :
  single_open db -> single_open (step policy db c).
Proof.
  intros H k. unfold open_records.
  destruct (step_invalidation_history policy db c) as [E | [t [hid E]]];
    rewrite E; [apply H|].
  apply update_invalidation_history_open. apply H.
Qed.

Lemma step_keeps_closed policy db c r :
  In r (task_invalidation_history db) ->
  DbTaskInvalidationHistory.is_open r = false ->
  In r (task_invalidation_history (step policy db c)).
Proof.
  intros Hin Hclosed.
  destruct (step_invalidation_history policy db c) as [E | [t [hid E]]];
    rewrite E; [assumption|].
  now apply update_invalidation_history_keeps_closed.
Qed.

(** *** Closed records accumulate *)

(** A legal action that meets no lock conflict: where the task and the
    invalidation table stand afterwards. *)
Lemma step_applied policy db c t status :
  find_task db (call_task_id c) (call_project_id c) = Some t ->
  lock_conflict t (call_action c) (call_actor c) = None ->
  DbTask.task_status t = Some status ->
  In (call_action c) (allowed_actions status) ->
  find_task (step policy db c) (call_task_id c) (call_project_id c)
  = Some (update_task (resulting_status policy status (call_action c))
            (call_action c) (call_actor c) t) /\
  task_invalidation_history (step policy db c)
  = update_invalidation_history (call_now c) t (call_action c) (call_actor c)
      (next_id (history_ids db)) (task_invalidation_history db).
Proof.
  intros Hfind Hfree Hstatus Hin. unfold step, apply_action.
  rewrite Hfind, Hstatus.
  replace (transition policy status (call_action c))
    with (Some (resulting_status policy status (call_action c)))
    by (symmetry; apply transition_Some; auto).
  rewrite Hfree. split; [|reflexivity].
  unfold find_task in *. simpl. rewrite find_after_update.
  - rewrite Hfind. simpl. now rewrite key_eqb_refl.
  - intros r. destruct (key_eqb (DbTask.key r) (DbTask.key t));
      [apply update_task_key | reflexivity].
Qed.

Lemma resolve_open_noop f k l :
  filter (fun r => DbTaskInvalidationHistory.is_open r && for_task k r) l = [] ->
  map (resolve_open f k) l = l.
Proof.
  induction l as [|r l IH]; simpl; [reflexivity|]. unfold resolve_open at 1.
  destruct (DbTaskInvalidationHistory.is_open r && for_task k r);
    [discriminate|].
  intros H. now rewrite IH.
Qed.

Lemma lock_conflict_not_a_lock t action actor :
  is_lock_action action = false -> lock_conflict t action actor = None.
Proof.
  unfold lock_conflict. intros ->. now destruct (DbTask.locked_by t).
Qed.

(** One more cycle, one more closed record. *)
Lemma invalidation_cycle_settles db task_id project_id n :
  settled db task_id project_id n ->
  settled (run REOPEN_MAPPED (invalidation_cycle task_id project_id) db)
          task_id project_id (S n).
Proof.
  intros [t [Hfind [Hstatus [Hclosed Hopen]]]].
  assert (Hkey : DbTask.key t = (task_id, project_id)).
  { unfold find_task in Hfind. apply find_some in Hfind.
    now apply key_eqb_eq. }
  unfold run, invalidation_cycle. simpl fold_left.
  set (c1 := mkCall 0 task_id project_id TaskAction.MARK_BAD 9 None).
  set (c2 := mkCall 0 task_id project_id TaskAction.LOCK_FOR_VALIDATION 8 None).
  set (c3 := mkCall 0 task_id project_id TaskAction.VALIDATED 8 None).
  destruct (step_applied REOPEN_MAPPED db c1 t TaskStatus.VALIDATED
              Hfind (lock_conflict_not_a_lock t TaskAction.MARK_BAD 9 eq_refl) Hstatus
              (or_introl eq_refl)) as [Hfind1 Htih1].
  set (db1 := step REOPEN_MAPPED db c1) in *.
  destruct (step_applied REOPEN_MAPPED db1 c2 _ TaskStatus.MAPPED
              Hfind1 eq_refl eq_refl (or_introl eq_refl)) as [Hfind2 Htih2].
  set (db2 := step REOPEN_MAPPED db1 c2) in *.
  destruct (step_applied REOPEN_MAPPED db2 c3 _ TaskStatus.LOCKED_FOR_VALIDATION
              Hfind2 eq_refl eq_refl (or_introl eq_refl)) as [Hfind3 Htih3].
  set (db3 := step REOPEN_MAPPED db2 c3) in *.
  assert (Htih : exists fresh,
            DbTaskInvalidationHistory.is_open fresh = false /\
            for_task (task_id, project_id) fresh = true /\
            task_invalidation_history db3
            = task_invalidation_history db ++ [fresh]).
  { eexists (validate_record 0 8 _).
    split; [reflexivity|]. split.
    2:{ rewrite Htih3, Htih2, Htih1. simpl update_invalidation_history.
        unfold DbTask.key in *. cbn [DbTask.id DbTask.project_id].
        rewrite Hkey. rewrite (resolve_open_noop _ _ _ Hopen).
        rewrite map_app, (resolve_open_noop _ _ _ Hopen). simpl map.
        unfold resolve_open at 1.
        unfold for_task, DbTaskInvalidationHistory.key,
          DbTaskInvalidationHistory.is_open.
        cbn [DbTaskInvalidationHistory.task_id
             DbTaskInvalidationHistory.project_id
             DbTaskInvalidationHistory.is_closed].
        rewrite Hkey, key_eqb_refl. reflexivity. }
    unfold for_task, DbTaskInvalidationHistory.key, validate_record.
    cbn [DbTaskInvalidationHistory.task_id DbTaskInvalidationHistory.project_id].
    unfold DbTask.key in Hkey. rewrite Hkey. apply key_eqb_refl. }
  destruct Htih as [fresh [Hfresh_closed [Hfresh_task Htih]]].
  eexists. split; [exact Hfind3|]. split; [reflexivity|].
  unfold closed_records, open_records in *.
  rewrite Htih, !filter_app, length_app, Hclosed, Hopen. simpl.
  rewrite Hfresh_closed, Hfresh_task. simpl. split; [lia | reflexivity].
Qed.

(** A READY task that nobody holds is brought to VALIDATED; the invalidation
    records stay as they are. *)
Lemma validate_calls_settle db task_id project_id t n :
  find_task db task_id project_id = Some t ->
  DbTask.task_status t = Some TaskStatus.READY ->
  DbTask.locked_by t = None ->
  List.length (closed_records db (task_id, project_id)) = n ->
  open_records db (task_id, project_id) = [] ->
  settled (run REOPEN_MAPPED (validate_calls task_id project_id) db)
          task_id project_id n.
Proof.
  intros Hfind Hstatus Hfree Hclosed Hopen.
  assert (Hkey : DbTask.key t = (task_id, project_id)).
  { unfold find_task in Hfind. apply find_some in Hfind.
    now apply key_eqb_eq. }
  assert (Hlock : lock_conflict t TaskAction.LOCK_FOR_MAPPING 7 = None)
    by (unfold lock_conflict; now rewrite Hfree).
  unfold run, validate_calls. simpl fold_left.
  set (c1 := mkCall 0 task_id project_id TaskAction.LOCK_FOR_MAPPING 7 None).
  set (c2 := mkCall 0 task_id project_id TaskAction.MAPPED 7 None).
  set (c3 := mkCall 0 task_id project_id TaskAction.LOCK_FOR_VALIDATION 8 None).
  set (c4 := mkCall 0 task_id project_id TaskAction.VALIDATED 8 None).
  destruct (step_applied REOPEN_MAPPED db c1 t TaskStatus.READY
              Hfind Hlock Hstatus (or_introl eq_refl)) as [Hfind1 Htih1].
  set (db1 := step REOPEN_MAPPED db c1) in *.
  destruct (step_applied REOPEN_MAPPED db1 c2 _ TaskStatus.LOCKED_FOR_MAPPING
              Hfind1 eq_refl eq_refl (or_introl eq_refl)) as [Hfind2 Htih2].
  set (db2 := step REOPEN_MAPPED db1 c2) in *.
  destruct (step_applied REOPEN_MAPPED db2 c3 _ TaskStatus.MAPPED
              Hfind2 eq_refl eq_refl (or_introl eq_refl)) as [Hfind3 Htih3].
  set (db3 := step REOPEN_MAPPED db2 c3) in *.
  destruct (step_applied REOPEN_MAPPED db3 c4 _ TaskStatus.LOCKED_FOR_VALIDATION
              Hfind3 eq_refl eq_refl (or_introl eq_refl)) as [Hfind4 Htih4].
  set (db4 := step REOPEN_MAPPED db3 c4) in *.
  assert (Htih : task_invalidation_history db4 = task_invalidation_history db).
  { rewrite Htih4, Htih3, Htih2, Htih1. simpl update_invalidation_history.
    unfold DbTask.key in *. cbn [DbTask.id DbTask.project_id].
    rewrite Hkey. exact (resolve_open_noop _ _ _ Hopen). }
  eexists. split; [exact Hfind4|]. split; [reflexivity|].
  unfold closed_records, open_records in *. rewrite Htih. now split.
Qed.

Lemma run_app policy calls1 calls2 db :
  run policy (calls1 ++ calls2) db = run policy calls2 (run policy calls1 db).
Proof. unfold run. apply fold_left_app. Qed.

Lemma invalidation_cycles_settle n db task_id project_id m :
  settled db task_id project_id m ->
  settled (run REOPEN_MAPPED (invalidation_cycles n task_id project_id) db)
          task_id project_id (n + m).
Proof.
  revert db m. induction n as [|n IH]; intros db m Hsettled.
  - exact Hsettled.
  - change (invalidation_cycles (S n) task_id project_id)
      with (invalidation_cycle task_id project_id
            ++ invalidation_cycles n task_id project_id).
    rewrite run_app. replace (S n + m)%nat with (n + S m)%nat by lia.
    apply IH. now apply invalidation_cycle_settles.
Qed.

(** C4. Starting from a database in which every task has at most one open
    invalidation record, every sequence of state-machine calls leads to a
    database with the same property: each call preserves it.  Records that
    are not open are never removed or reopened, and any number of closed
    records accumulates: [n] invalidation cycles on a task leave it with [n]
    more closed records and no open one. *)
Theorem single_open_invalidation_record :
  (forall (policy : ReopenPolicy) (calls : list Call) (db : Db),
     single_open db ->
     single_open (run policy calls db) /\
     (forall r, In r (task_invalidation_history db) ->
        DbTaskInvalidationHistory.is_open r = false ->
        In r (task_invalidation_history (run policy calls db)))) /\
  (forall (db : Db) (task_id project_id : Z) (t : DbTask.t) (n : nat),
     find_task db task_id project_id = Some t ->
     DbTask.task_status t = Some TaskStatus.READY ->
     DbTask.locked_by t = None ->
     open_records db (task_id, project_id) = [] ->
     List.length
       (closed_records
          (run REOPEN_MAPPED
             (validate_calls task_id project_id
              ++ invalidation_cycles n task_id project_id) db)
          (task_id, project_id))
     = (n + List.length (closed_records db (task_id, project_id)))%nat /\
     open_records
       (run REOPEN_MAPPED
          (validate_calls task_id project_id
           ++ invalidation_cycles n task_id project_id) db)
       (task_id, project_id) = []).
Proof.
  split.
  - intros policy calls. unfold run.
    induction calls as [|c calls IH]; intros db Hinv; simpl.
    + split; [assumption | auto].
    + destruct (IH (step policy db c) (step_single_open policy db c Hinv))
        as [Hrun Hkeep].
      split; [assumption|].
      intros r Hin Hclosed. apply Hkeep; [|assumption].
      now apply step_keeps_closed.
  - intros db task_id project_id t n Hfind Hstatus Hfree Hopen.
    rewrite run_app.
    destruct (invalidation_cycles_settle n _ task_id project_id _
                (validate_calls_settle db task_id project_id t _
                   Hfind Hstatus Hfree eq_refl Hopen))
      as [t' [_ [_ [Hclosed Hnone]]]].
    now split.
Qed.

(** Two invalidation cycles on one task leave two closed records and no
    open one. *)
Lemma single_open_after_two_cycles :
  single_open (run REOPEN_MAPPED two_cycles five_tasks_db) /\
  List.length
    (closed_records
       (run REOPEN_MAPPED (validate_calls 1 1 ++ invalidation_cycles 2 1 1)
          five_tasks_db) (1, 1)) = 2%nat /\
  open_records
    (run REOPEN_MAPPED (validate_calls 1 1 ++ invalidation_cycles 2 1 1)
       five_tasks_db) (1, 1) = [].
Proof.
  split.
  - apply (proj1 (proj1 single_open_invalidation_record REOPEN_MAPPED two_cycles
                    five_tasks_db (fun k => Nat.le_0_l 1))).
  - apply (proj2 single_open_invalidation_record five_tasks_db 1 1
             (sample_task 1 1 TaskStatus.READY) 2%nat);
      reflexivity.
Defined.

(** * Further properties of the routes and of the session *)

(** ** Deleting an organisation *)

Lemma get_organisation_by_id_found db organization_id :
  (exists o, In o (organisations db) /\ DbOrganisation.id o = organization_id) ->
  exists o, organization_crud.get_organisation_by_id db organization_id = Some o /\
            In o (organisations db) /\ DbOrganisation.id o = organization_id.
Proof.
  intros [o [Hin Hid]]. unfold organization_crud.get_organisation_by_id.
  destruct (find (fun x => DbOrganisation.id x =? organization_id)
                 (organisations db)) as [o'|] eqn:F.
  - exists o'. apply find_some in F. destruct F as [Hin' E].
    apply Z.eqb_eq in E. auto.
  - pose proof (find_none _ _ F o Hin) as H. simpl in H.
    apply Z.eqb_neq in H. contradiction.
Qed.

Lemma get_organisation_by_id_Some db organization_id o :
  organization_crud.get_organisation_by_id db organization_id = Some o ->
  In o (organisations db) /\ DbOrganisation.id o = organization_id.
Proof.
  unfold organization_crud.get_organisation_by_id. intros F.
  apply find_some in F. destruct F as [Hin E]. apply Z.eqb_eq in E. auto.
Qed.

(** The state that the delete of organisation [o] flushes. *)
Lemma session_delete_organisation_cases db o :
  (exists t, In t (teams db) /\ DbTeam.organisation_id t = DbOrganisation.id o) /\
  session_delete_organisation db o
  = Raise (IntegrityError "null value in column organisation_id of teams")
  \/
  (forall t, In t (teams db) -> DbTeam.organisation_id t <> DbOrganisation.id o) /\
  session_delete_organisation db o
  = commit
      (with_projects
         (map (without_organisation (DbOrganisation.id o)) (projects db))
         (with_organisations
            (filter (fun x => negb (DbOrganisation.id x =? DbOrganisation.id o))
                    (organisations db))
            db)).
Proof.
  unfold session_delete_organisation.
  destruct (existsb (fun t => DbTeam.organisation_id t =? DbOrganisation.id o)
                    (teams db)) eqn:E.
  - left. apply existsb_exists in E. destruct E as [t [Hin Ht]].
    apply Z.eqb_eq in Ht. split; [eauto | reflexivity].
  - right. split; [|reflexivity].
    intros t Hin. apply Z.eqb_neq.
    exact (proj1 (existsb_false_iff _ _) E t Hin).
Qed.

Lemma without_organisation_id oid q :
  DbProject.id (without_organisation oid q) = DbProject.id q.
Proof.
  unfold without_organisation.
  now destruct (col_eq_Z (DbProject.organisation_id q) oid).
Qed.

Lemma without_organisation_clears oid q :
  DbProject.organisation_id (without_organisation oid q) <> Some oid.
Proof.
  unfold without_organisation.
  destruct (col_eq_Z (DbProject.organisation_id q) oid) eqn:E;
    [discriminate|].
  intros H. apply col_eq_Z_true in H. congruence.
Qed.

(** Removing an organisation that no team names, and detaching its projects,
    breaks no foreign key. *)
Lemma delete_organisation_foreign_keys db oid :
  foreign_keys db ->
  (forall t, In t (teams db) -> DbTeam.organisation_id t <> oid) ->
  foreign_keys
    (with_projects (map (without_organisation oid) (projects db))
       (with_organisations
          (filter (fun x => negb (DbOrganisation.id x =? oid)) (organisations db))
          db)).
Proof.
  intros Hfk Hteams.
  set (db' := with_projects _ _).
  assert (Horg : forall x, mem_Z x (organisation_ids db) = true -> x <> oid ->
            mem_Z x (organisation_ids db') = true).
  { intros x Hx Hne. unfold organisation_ids in *. apply mem_Z_map_In in Hx.
    destruct Hx as [o [Hin E]]. apply mem_Z_map_In. exists o.
    split; [|assumption]. simpl. apply filter_In. split; [assumption|].
    apply negb_true_iff, Z.eqb_neq. congruence. }
  assert (Hproj : project_ids db' = project_ids db).
  { unfold project_ids, db'. simpl. rewrite map_map. apply map_ext.
    apply without_organisation_id. }
  constructor.
  - intros r Hin. unfold team_fk. apply Horg.
    + exact (fk_of_team db Hfk r Hin).
    + now apply Hteams.
  - intros r Hin. simpl in Hin. apply in_map_iff in Hin.
    destruct Hin as [q [<- Hq]]. pose proof (fk_of_project db Hfk q Hq) as H.
    unfold project_fk, without_organisation in *.
    destruct (col_eq_Z (DbProject.organisation_id q) oid) eqn:E; [reflexivity|].
    destruct (DbProject.organisation_id q) as [x|]; [|reflexivity].
    simpl in *. apply Horg; [assumption|]. now apply Z.eqb_neq.
  - intros r Hin. unfold project_info_fk. rewrite Hproj.
    exact (fk_of_project_info db Hfk r Hin).
  - intros r Hin. unfold project_chat_fk. rewrite Hproj.
    exact (fk_of_project_chat db Hfk r Hin).
  - intros r Hin. unfold task_fk. rewrite Hproj.
    exact (fk_of_task db Hfk r Hin).
  - intros r Hin. unfold task_history_fk. rewrite Hproj.
    exact (fk_of_task_history db Hfk r Hin).
  - intros r Hin. unfold task_invalidation_history_fk. rewrite Hproj.
    exact (fk_of_task_invalidation_history db Hfk r Hin).
  - intros r Hin. exact (fk_of_task_mapping_issue db Hfk r Hin).
  - intros r Hin. unfold features_fk. rewrite Hproj.
    exact (fk_of_features db Hfk r Hin).
Qed.

(** X1. Deleting an organisation that exists and that no team names
    succeeds on a database whose foreign keys hold: the endpoint answers
    "Organization Deleted Successfully.", exactly the organisations with the
    requested id are gone, the projects that named the organisation are kept
    with [organisation_id] NULL, every other project is kept as it was, and
    teams and tasks are untouched. *)
Theorem delete_organisation_detaches_projects :
  forall (db : Db) (organization_id : Z),
    foreign_keys_ok db = true ->
    (exists o, In o (organisations db) /\
               DbOrganisation.id o = organization_id) ->
    (forall t, In t (teams db) -> DbTeam.organisation_id t <> organization_id) ->
    exists db',
      organization_routes.delete_organisations db organization_id
      = (db', Return [("Message"%string,
                       "Organization Deleted Successfully."%string)]) /\
      (forall o, In o (organisations db') <->
                 In o (organisations db) /\
                 DbOrganisation.id o <> organization_id) /\
      (forall q, In q (projects db') ->
         DbProject.organisation_id q <> Some organization_id) /\
      (forall q, In q (projects db) ->
         DbProject.organisation_id q <> Some organization_id ->
         In q (projects db')) /\
      map DbProject.id (projects db') = map DbProject.id (projects db) /\
      teams db' = teams db /\
      tasks db' = tasks db.
Proof.
  intros db organization_id Hfk Hex Hteams.
  apply get_organisation_by_id_found in Hex. destruct Hex as [o [Hget [_ Hid]]].
  unfold organization_routes.delete_organisations. rewrite Hget.
  destruct (session_delete_organisation_cases db o)
    as [[[t [Ht Et]] _] | [_ ->]].
  { exfalso. apply (Hteams t Ht). congruence. }
  rewrite Hid. unfold commit.
  apply foreign_keys_ok_iff in Hfk.
  pose proof (delete_organisation_foreign_keys db organization_id Hfk Hteams)
    as Hfk'.
  apply foreign_keys_ok_iff in Hfk'. rewrite Hfk'.
  eexists. split; [reflexivity|]. simpl.
  split; [|split; [|split; [|split; [|split; reflexivity]]]].
  - intros x. rewrite filter_In, negb_true_iff, Z.eqb_neq. reflexivity.
  - intros q Hq. apply in_map_iff in Hq. destruct Hq as [q0 [<- _]].
    apply without_organisation_clears.
  - intros q Hq Hne. apply in_map_iff. exists q. split; [|assumption].
    unfold without_organisation.
    destruct (col_eq_Z (DbProject.organisation_id q) organization_id) eqn:E;
      [|reflexivity].
    apply col_eq_Z_true in E. contradiction.
  - rewrite map_map. apply map_ext. apply without_organisation_id.
Qed.

(** HOT, which has no team, is deleted; its project 1 stays. *)
Lemma delete_organisation_detaches_projects_sample :
  exists db',
    organization_routes.delete_organisations two_orgs_db 1
    = (db', Return [("Message"%string,
                     "Organization Deleted Successfully."%string)]) /\
    map DbProject.id (projects db') = [1; 2; 3] /\
    (forall q, In q (projects db') -> DbProject.organisation_id q <> Some 1).
Proof.
  destruct (delete_organisation_detaches_projects two_orgs_db 1 eq_refl)
    as [db' [Hdel [_ [Hnone [_ [Hids _]]]]]].
  - exists (DbOrganisation.mk 1 "HOT" "hot" None None None). simpl; tauto.
  - intros t [<-|[]]. discriminate.
  - exists db'. repeat split; assumption.
Defined.

(** X2. Deleting an organisation that a team still names fails: the delete
    raises [IntegrityError] (the team's [organisation_id] cannot be set to
    NULL), neither a 404 nor a success, and the database is left as it was. *)
Theorem delete_organisation_with_team_refused :
  forall (db : Db) (organization_id : Z),
    (exists o, In o (organisations db) /\
               DbOrganisation.id o = organization_id) ->
    (exists t, In t (teams db) /\ DbTeam.organisation_id t = organization_id) ->
    organization_routes.delete_organisations db organization_id
    = (db, Raise (IntegrityError
                    "null value in column organisation_id of teams")).
Proof.
  intros db organization_id Hex [t [Ht Et]].
  apply get_organisation_by_id_found in Hex. destruct Hex as [o [Hget [_ Hid]]].
  unfold organization_routes.delete_organisations. rewrite Hget.
  destruct (session_delete_organisation_cases db o)
    as [[_ ->] | [Hnone _]]; [reflexivity|].
  exfalso. apply (Hnone t Ht). congruence.
Qed.

(** MSF has a team: it cannot be deleted. *)
Lemma delete_organisation_with_team_refused_sample :
  organization_routes.delete_organisations two_orgs_db 2
  = (two_orgs_db,
     Raise (IntegrityError "null value in column organisation_id of teams")).
Proof.
  apply delete_organisation_with_team_refused.
  - exists (DbOrganisation.mk 2 "MSF" "msf" None None None). simpl; tauto.
  - exists (DbTeam.mk 1 2 "field"). simpl; tauto.
Defined.

(** X3. Once an organisation has been deleted, its id is not found any more:
    fetching its detail and deleting it again both raise the HTTP 404 error
    and change nothing. *)
Theorem deleted_organisation_is_not_found :
  forall (db db' : Db) (organization_id : Z)
         (response : organization_routes.Response),
    organization_routes.delete_organisations db organization_id
    = (db', Return response) ->
    organization_routes.get_organization_detail db' organization_id
    = (db', Raise (HTTPException 404 "Organization not found")) /\
    organization_routes.delete_organisations db' organization_id
    = (db', Raise (HTTPException 404 "Organization not found")).
Proof.
  intros db db' organization_id response.
  unfold organization_routes.delete_organisations at 1.
  destruct (organization_crud.get_organisation_by_id db organization_id)
    as [o|] eqn:Hget; [|discriminate].
  apply get_organisation_by_id_Some in Hget. destruct Hget as [_ Hid].
  destruct (session_delete_organisation_cases db o) as [[_ ->] | [_ ->]];
    [discriminate|].
  destruct (commit _) as [db1|e] eqn:Hcommit; [|discriminate].
  apply commit_Return in Hcommit. destruct Hcommit as [-> _].
  intros E. inversion E; subst db'. clear E.
  assert (Hmissing : forall x,
            In x (organisations
                    (with_projects
                       (map (without_organisation (DbOrganisation.id o))
                            (projects db))
                       (with_organisations
                          (filter (fun x => negb (DbOrganisation.id x
                                                  =? DbOrganisation.id o))
                                  (organisations db)) db))) ->
            DbOrganisation.id x <> organization_id).
  { intros x Hx. simpl in Hx. apply filter_In in Hx. destruct Hx as [_ Hx].
    apply negb_true_iff, Z.eqb_neq in Hx. congruence. }
  unfold organization_routes.get_organization_detail,
    organization_routes.delete_organisations.
  rewrite (get_organisation_by_id_missing _ organization_id Hmissing).
  split; reflexivity.
Qed.

(** HOT is deleted, then looked up. *)
Lemma deleted_organisation_is_not_found_sample :
  organization_routes.get_organization_detail
    (fst (organization_routes.delete_organisations two_orgs_db 1)) 1
  = (fst (organization_routes.delete_organisations two_orgs_db 1),
     Raise (HTTPException 404 "Organization not found")).
Proof.
  apply (proj1 (deleted_organisation_is_not_found two_orgs_db
                  (fst (organization_routes.delete_organisations two_orgs_db 1))
                  1
                  [("Message"%string,
                    "Organization Deleted Successfully."%string)]
                  eq_refl)).
Defined.

(** ** Creating an organisation, then reading it *)

(** What a successful creation through the modelled
    [organization_crud.create_organization] did. *)
Lemma create_organization_Return
    generate_slug organisation_id db name description url logo db' r :
  organization_routes.create_organization
    (organization_crud.create_organization generate_slug organisation_id)
    db name description url logo = (db', Return r) ->
  db' = with_organisations
          (organisations db
           ++ [DbOrganisation.mk organisation_id name
                 (generate_slug name) logo description url]) db /\
  (forall o, In o (organisations db) -> DbOrganisation.id o <> organisation_id).
Proof.
  unfold organization_routes.create_organization,
    organization_crud.create_organization.
  destruct (organization_crud.get_organisation_by_name db name);
    [discriminate|].
  destruct (insert_organisation_cases db organisation_id name
              (generate_slug name) logo description url)
    as [[e ->] | [-> [_ [_ [Hid _]]]]]; [discriminate|].
  intros E. inversion E. auto.
Qed.

Lemma find_last {A : Type} (test : A -> bool) (rows : list A) (r : A) :
  (forall x, In x rows -> test x = false) -> test r = true ->
  find test (rows ++ [r]) = Some r.
Proof.
  intros Hfail Hr. induction rows as [|x rows IH]; simpl.
  - now rewrite Hr.
  - rewrite (Hfail x (or_introl eq_refl)). apply IH.
    intros y Hy. apply Hfail. now right.
Qed.

(** X4. After an organisation has been created, creating another one with
    the same name, whatever its other details and whatever
    [organization_crud.create_organization] would do with them, raises the
    HTTP 400 error "Organization already exists with the name ..." and
    stores nothing. *)
Theorem create_organization_twice_conflicts :
  forall (generate_slug : string -> string) (organisation_id : Z)
         (A : Type)
         (crud_create_organization :
            Db -> string -> option string -> option string -> option string ->
            Db * result A)
         (db db' : Db) (name : string)
         (description url logo description' url' logo' : option string)
         (response : organization_routes.Response),
    organization_routes.create_organization
      (organization_crud.create_organization generate_slug organisation_id)
      db name description url logo = (db', Return response) ->
    organization_routes.create_organization
      crud_create_organization db' name description' url' logo'
    = (db', Raise (HTTPException 400
                     ("Organization already exists with the name " ++ name)%string)).
Proof.
  intros generate_slug organisation_id A crud_create_organization db db' name
         description url logo description' url' logo' response Hcreate.
  apply create_organization_Return in Hcreate. destruct Hcreate as [-> _].
  unfold organization_routes.create_organization.
  destruct (get_organisation_by_name_present
              (with_organisations
                 (organisations db
                  ++ [DbOrganisation.mk organisation_id name
                        (generate_slug name) logo description url]) db) name)
    as [o ->]; [|reflexivity].
  eexists. split; [simpl; apply in_or_app; right; left; reflexivity|].
  reflexivity.
Qed.

(** "HOT" is created in an empty table, then once more. *)
Lemma create_organization_twice_conflicts_sample :
  organization_routes.create_organization
    (organization_crud.create_organization (fun name => name) 2)
    (fst (organization_routes.create_organization
            (organization_crud.create_organization (fun name => name) 1)
            empty_db "HOT" None None None))
    "HOT" (Some "again"%string) None None
  = (fst (organization_routes.create_organization
            (organization_crud.create_organization (fun name => name) 1)
            empty_db "HOT" None None None),
     Raise (HTTPException 400 "Organization already exists with the name HOT")).
Proof.
  apply (create_organization_twice_conflicts (fun name => name) 1 bool
           (organization_crud.create_organization (fun name => name) 2)
           empty_db
           (fst (organization_routes.create_organization
                   (organization_crud.create_organization (fun name => name) 1)
                   empty_db "HOT" None None None))
           "HOT" None None None (Some "again"%string) None None
           [("Message"%string, "Organization Created Successfully."%string)]
           eq_refl).
Defined.

(** X5. A created organisation can be read back: the detail endpoint
    returns, at the id that the sequence gave to the new row, a row with the
    name, slug, description, url and logo of the call, and the list endpoint
    returns that row together with the organisations that were there before,
    and no other. *)
Theorem created_organisation_is_read_back :
  forall (generate_slug : string -> string) (organisation_id : Z)
         (db db' : Db) (name : string)
         (description url logo : option string)
         (response : organization_routes.Response),
    organization_routes.create_organization
      (organization_crud.create_organization generate_slug organisation_id)
      db name description url logo = (db', Return response) ->
    exists o,
      organization_routes.get_organization_detail db' organisation_id
      = (db', Return o) /\
      DbOrganisation.id o = organisation_id /\
      DbOrganisation.name o = name /\
      DbOrganisation.slug o = generate_slug name /\
      DbOrganisation.description o = description /\
      DbOrganisation.url o = url /\
      DbOrganisation.logo o = logo /\
      exists l,
        organization_routes.get_organisations db' = (db', Return l) /\
        (forall x, In x l <-> x = o \/ In x (organisations db)).
Proof.
  intros generate_slug organisation_id db db' name description url logo
         response Hcreate.
  apply create_organization_Return in Hcreate. destruct Hcreate as [-> Hnew].
  exists (DbOrganisation.mk organisation_id name
            (generate_slug name) logo description url).
  split; [|repeat split].
  - unfold organization_routes.get_organization_detail,
      organization_crud.get_organisation_by_id. simpl.
    rewrite find_last; [reflexivity | | apply Z.eqb_refl].
    intros x Hx. apply Z.eqb_neq. now apply Hnew.
  - eexists. split; [reflexivity|]. intros x. simpl.
    rewrite in_app_iff. simpl. intuition congruence.
Qed.

(** A third organisation is added to the two of the sample; the sequence
    gives it the id 5, and it is read back under that id. *)
Lemma created_organisation_is_read_back_sample :
  exists o,
    organization_routes.get_organization_detail
      (fst (organization_routes.create_organization
              (organization_crud.create_organization (fun name => name) 5)
              two_orgs_db "IFRC" None (Some "https://ifrc.org"%string) None))
      5
    = (fst (organization_routes.create_organization
              (organization_crud.create_organization (fun name => name) 5)
              two_orgs_db "IFRC" None (Some "https://ifrc.org"%string) None),
       Return o) /\
    DbOrganisation.name o = "IFRC"%string /\
    DbOrganisation.url o = Some "https://ifrc.org"%string.
Proof.
  destruct (created_organisation_is_read_back (fun name => name) 5 two_orgs_db
              (fst (organization_routes.create_organization
                      (organization_crud.create_organization
                         (fun name => name) 5)
                      two_orgs_db "IFRC" None
                      (Some "https://ifrc.org"%string) None))
              "IFRC" None (Some "https://ifrc.org"%string) None
              [("Message"%string, "Organization Created Successfully."%string)]
              eq_refl)
    as [o [Hget [_ [Hname [_ [_ [Hurl _]]]]]]].
  exists o. repeat split; assumption.
Defined.

(** ** Derived counts under status changes *)

(** X7. The three derived counts of a project never add up to more than the
    number of its tasks, since a task is counted by at most one of them; they
    add up to exactly that number when every task of the project is MAPPED,
    VALIDATED or BAD. *)
Theorem derived_counts_bounded :
  forall (db : Db) (project : DbProject.t),
    (tasks_mapped db project + tasks_validated db project
     + tasks_bad db project
     <= List.length (project_tasks db project))%nat /\
    ((forall t, In t (project_tasks db project) ->
        DbTask.task_status t = Some TaskStatus.MAPPED \/
        DbTask.task_status t = Some TaskStatus.VALIDATED \/
        DbTask.task_status t = Some TaskStatus.BAD) ->
     (tasks_mapped db project + tasks_validated db project
      + tasks_bad db project
      = List.length (project_tasks db project))%nat).
Proof.
  intros db project.
  unfold tasks_mapped, tasks_validated, tasks_bad, project_tasks,
    Query.count, Query.with_parent, Query.filter_status, Query.query_DbTask.
  induction (tasks db) as [|t l [IHle IHeq]]; simpl; [split; auto|].
  destruct (DbTask.project_id t =? DbProject.id project) eqn:Ep.
  - split.
    + destruct (DbTask.task_status t) as [[]|]; simpl; rewrite ?Ep; simpl; lia.
    + intros Hall.
      assert (Hrest : forall t', In t' (filter (fun t0 => DbTask.project_id t0
                                                 =? DbProject.id project) l) ->
                DbTask.task_status t' = Some TaskStatus.MAPPED \/
                DbTask.task_status t' = Some TaskStatus.VALIDATED \/
                DbTask.task_status t' = Some TaskStatus.BAD)
        by (intros t' Ht'; apply Hall; now right).
      specialize (IHeq Hrest).
      destruct (Hall t (or_introl eq_refl)) as [E | [E | E]]; rewrite E;
        simpl; rewrite Ep; simpl; lia.
  - split.
    + destruct (DbTask.task_status t) as [[]|]; simpl; rewrite ?Ep; simpl; lia.
    + intros Hall. specialize (IHeq Hall).
      destruct (DbTask.task_status t) as [[]|]; simpl; rewrite ?Ep; simpl; lia.
Qed.

(** All five tasks are mapped: the counts add up to 5. *)
Lemma derived_counts_bounded_sample :
  Nat.add
    (Nat.add
       (tasks_mapped
          (mark_tasks [(1, 1); (2, 1); (3, 1); (4, 1); (5, 1)]
             TaskStatus.MAPPED five_tasks_db) (sample_project 1))
       (tasks_validated
          (mark_tasks [(1, 1); (2, 1); (3, 1); (4, 1); (5, 1)]
             TaskStatus.MAPPED five_tasks_db) (sample_project 1)))
    (tasks_bad
       (mark_tasks [(1, 1); (2, 1); (3, 1); (4, 1); (5, 1)]
          TaskStatus.MAPPED five_tasks_db) (sample_project 1))
  = 5%nat.
Proof.
  apply (proj2 (derived_counts_bounded
                  (mark_tasks [(1, 1); (2, 1); (3, 1); (4, 1); (5, 1)]
                     TaskStatus.MAPPED five_tasks_db) (sample_project 1))).
  simpl. intros t [<-|[<-|[<-|[<-|[<-|[]]]]]]; left; reflexivity.
Defined.

Lemma status_count_app_cons pid s (l1 l2 : list DbTask.t) (t : DbTask.t) :
  List.length
    (filter (fun r => DbTask.project_id r =? pid)
       (filter (fun r => col_eq_status (DbTask.task_status r) s)
          (l1 ++ t :: l2)))
  = Nat.add
      (List.length
         (filter (fun r => DbTask.project_id r =? pid)
            (filter (fun r => col_eq_status (DbTask.task_status r) s)
               (l1 ++ l2))))
      (Nat.b2n ((DbTask.project_id t =? pid)
                && col_eq_status (DbTask.task_status t) s)).
Proof.
  rewrite !filter_app, !length_app. simpl.
  destruct (col_eq_status (DbTask.task_status t) s); simpl;
    [|rewrite andb_false_r; simpl; lia].
  destruct (DbTask.project_id t =? pid); simpl; lia.
Qed.

(** Under the primary key, a status update rewrites one row in place. *)
Lemma update_task_status_one_row db t s :
  tasks_pk db -> In t (tasks db) ->
  exists l1 l2,
    tasks db = l1 ++ t :: l2 /\
    tasks (update_task_status (DbTask.key t) s db)
    = l1 ++ DbTask.set_task_status (Some s) t :: l2.
Proof.
  unfold tasks_pk. intros Hpk Hin.
  destruct (in_split t (tasks db) Hin) as [l1 [l2 E]].
  exists l1, l2. split; [assumption|].
  rewrite update_task_status_tasks, E. rewrite E in Hpk.
  rewrite map_app in Hpk. simpl in Hpk.
  assert (Hother : forall r, In r (l1 ++ l2) ->
            key_eqb (DbTask.key r) (DbTask.key t) = false).
  { intros r Hr. destruct (key_eqb (DbTask.key r) (DbTask.key t)) eqn:Ek;
      [|reflexivity].
    apply key_eqb_eq in Ek. exfalso.
    apply NoDup_remove_2 in Hpk. apply Hpk. rewrite <- Ek, <- map_app.
    now apply in_map. }
  rewrite map_app. simpl. rewrite key_eqb_refl. f_equal; [|f_equal].
  - rewrite <- (map_id l1) at 2. apply map_ext_in. intros r Hr.
    rewrite Hother; [reflexivity | apply in_or_app; now left].
  - rewrite <- (map_id l2) at 2. apply map_ext_in. intros r Hr.
    rewrite Hother; [reflexivity | apply in_or_app; now right].
Qed.

Lemma status_count_after_update db project t s s' :
  tasks_pk db -> In t (tasks db) ->
  Nat.add
    (status_count (update_task_status (DbTask.key t) s db) project s')
    (Nat.b2n ((DbTask.project_id t =? DbProject.id project)
              && col_eq_status (DbTask.task_status t) s'))
  = Nat.add
      (status_count db project s')
      (Nat.b2n ((DbTask.project_id t =? DbProject.id project)
                && TaskStatus.eqb s s')).
Proof.
  intros Hpk Hin.
  destruct (update_task_status_one_row db t s Hpk Hin) as [l1 [l2 [E E']]].
  unfold status_count, Query.count, Query.with_parent, Query.filter_status,
    Query.query_DbTask.
  rewrite E, E', !status_count_app_cons. simpl. lia.
Qed.

(** X8. Under the primary key of [tasks], changing the status of one task
    moves exactly one unit between the derived counts of its project: the
    count of its old status loses the task and the count of its new status
    gains it, whichever of MAPPED, VALIDATED and BAD they are; the counts of
    every other project stay as they were. *)
Theorem status_change_moves_one_count :
  forall (db : Db) (project : DbProject.t) (t : DbTask.t) (s : TaskStatus.t),
    tasks_pk db ->
    In t (tasks db) ->
    let db' := update_task_status (DbTask.key t) s db in
    (DbTask.project_id t = DbProject.id project ->
     (tasks_mapped db' project
      + Nat.b2n (col_eq_status (DbTask.task_status t) TaskStatus.MAPPED)
      = tasks_mapped db project
        + Nat.b2n (TaskStatus.eqb s TaskStatus.MAPPED))%nat /\
     (tasks_validated db' project
      + Nat.b2n (col_eq_status (DbTask.task_status t) TaskStatus.VALIDATED)
      = tasks_validated db project
        + Nat.b2n (TaskStatus.eqb s TaskStatus.VALIDATED))%nat /\
     (tasks_bad db' project
      + Nat.b2n (col_eq_status (DbTask.task_status t) TaskStatus.BAD)
      = tasks_bad db project
        + Nat.b2n (TaskStatus.eqb s TaskStatus.BAD))%nat) /\
    (DbTask.project_id t <> DbProject.id project ->
     tasks_mapped db' project = tasks_mapped db project /\
     tasks_validated db' project = tasks_validated db project /\
     tasks_bad db' project = tasks_bad db project).
Proof.
  intros db project t s Hpk Hin db'.
  pose proof (fun s' => status_count_after_update db project t s s' Hpk Hin)
    as H.
  fold db' in H. split.
  - intros Ep. apply Z.eqb_eq in Ep. rewrite Ep in H. simpl in H.
    repeat split; apply H.
  - intros Ep. apply Z.eqb_neq in Ep. rewrite Ep in H. simpl in H.
    repeat split;
      [pose proof (H TaskStatus.MAPPED) as H'
      |pose proof (H TaskStatus.VALIDATED) as H'
      |pose proof (H TaskStatus.BAD) as H'];
      unfold status_count in H'; rewrite !Nat.add_0_r in H'; exact H'.
Qed.

(** Task 1 of the five READY tasks becomes MAPPED: one more mapped task. *)
Lemma status_change_moves_one_count_sample :
  Nat.add
    (tasks_mapped (update_task_status (1, 1) TaskStatus.MAPPED five_tasks_db)
       (sample_project 1)) 0
  = Nat.add (tasks_mapped five_tasks_db (sample_project 1)) 1.
Proof.
  apply (proj1 (proj1 (status_change_moves_one_count five_tasks_db
                         (sample_project 1)
                         (sample_task 1 1 TaskStatus.READY) TaskStatus.MAPPED
                         ltac:(unfold tasks_pk; prove_NoDup)
                         ltac:(simpl; tauto))
                  eq_refl)).
Defined.

(** ** What a project delete leaves alone *)

Lemma session_delete_project_Return db p db' :
  session_delete_project db p = Return db' ->
  db' = delete_project_cascade p db /\ foreign_keys (delete_project_cascade p db).
Proof.
  unfold session_delete_project. intros H. apply commit_Return in H.
  destruct H as [-> H]. apply foreign_keys_ok_iff in H. auto.
Qed.

Lemma session_delete_task_Return db t db' :
  session_delete_task db t = Return db' ->
  db' = delete_tasks_cascade (same_task t) db
  /\ foreign_keys (delete_tasks_cascade (same_task t) db).
Proof.
  unfold session_delete_task. intros H. apply commit_Return in H.
  destruct H as [-> H]. apply foreign_keys_ok_iff in H. auto.
Qed.

(** A selection that implies another one is not narrowed by it. *)
Lemma filter_through {A : Type} (keep sel : A -> bool) (l : list A) :
  (forall x, In x l -> sel x = true -> keep x = true) ->
  filter sel (filter keep l) = filter sel l.
Proof.
  induction l as [|x l IH]; simpl; intros H; [reflexivity|].
  assert (IH' : filter sel (filter keep l) = filter sel l)
    by (apply IH; intros y Hy; apply H; now right).
  destruct (sel x) eqn:Es.
  - rewrite (H x (or_introl eq_refl) Es). simpl. now rewrite Es, IH'.
  - destruct (keep x); simpl; rewrite ?Es; exact IH'.
Qed.

Lemma status_count_survivors db keep project s :
  (forall t, In t (tasks db) ->
     DbTask.project_id t = DbProject.id project -> keep t = true) ->
  status_count (with_tasks (filter keep (tasks db)) db) project s
  = status_count db project s.
Proof.
  intros Hkeep.
  unfold status_count, Query.count, Query.with_parent, Query.filter_status,
    Query.query_DbTask. simpl. f_equal.
  induction (tasks db) as [|t l IH]; simpl; [reflexivity|].
  assert (IH' : filter (fun t0 => DbTask.project_id t0 =? DbProject.id project)
                  (filter (fun t0 => col_eq_status (DbTask.task_status t0) s)
                     (filter keep l))
                = filter (fun t0 => DbTask.project_id t0 =? DbProject.id project)
                    (filter (fun t0 => col_eq_status (DbTask.task_status t0) s) l))
    by (apply IH; intros t' Ht'; apply Hkeep; now right).
  destruct (DbTask.project_id t =? DbProject.id project) eqn:Ep.
  - apply Z.eqb_eq in Ep. rewrite (Hkeep t (or_introl eq_refl) Ep). simpl.
    destruct (col_eq_status (DbTask.task_status t) s); simpl;
      [apply Z.eqb_eq in Ep; rewrite Ep; now rewrite IH' | exact IH'].
  - destruct (keep t); simpl;
      destruct (col_eq_status (DbTask.task_status t) s); simpl;
      rewrite ?Ep; exact IH'.
Qed.

(** The history rows of a task outlive the delete of tasks with other keys. *)
Lemma task_history_of_survivors db doomed t :
  (forall t', In t' (tasks db) -> doomed t' = true ->
     DbTask.key t' <> DbTask.key t) ->
  task_history_of (delete_tasks_cascade doomed db) t = task_history_of db t.
Proof.
  intros Hother. unfold task_history_of. simpl. f_equal.
  apply filter_through. intros h _ Hatt. apply negb_true_iff.
  destruct (history_of_tasks (filter doomed (tasks db)) h) eqn:E;
    [|reflexivity].
  apply history_of_tasks_true in E. destruct E as [t' [Ht' Hatt']].
  apply filter_In in Ht'. destruct Ht' as [Hin Hd].
  exfalso. apply (Hother t' Hin Hd).
  apply attached_history_key in Hatt, Hatt'. unfold DbTask.key.
  destruct Hatt as [E1 E2], Hatt' as [E3 E4]. f_equal; congruence.
Qed.

(** X9. An accepted delete of a project empties the project's own derived
    counts and changes nothing of any other project: its tasks, its derived
    counts, the history read through each of its tasks, its ProjectInfo rows
    and its chat rows are as before. *)
Theorem project_deletion_spares_other_projects :
  forall (db db' : Db) (p : DbProject.t),
    session_delete_project db p = Return db' ->
    (tasks_mapped db' p = 0%nat /\ tasks_validated db' p = 0%nat /\
     tasks_bad db' p = 0%nat) /\
    (forall q : DbProject.t,
       DbProject.id q <> DbProject.id p ->
       project_tasks db' q = project_tasks db q /\
       tasks_mapped db' q = tasks_mapped db q /\
       tasks_validated db' q = tasks_validated db q /\
       tasks_bad db' q = tasks_bad db q /\
       (forall t, In t (project_tasks db q) ->
          task_history_of db' t = task_history_of db t) /\
       (forall r, In r (project_info db) ->
          DbProjectInfo.project_id r = DbProject.id q ->
          In r (project_info db')) /\
       (forall r, In r (project_chat db) ->
          DbProjectChat.project_id r = DbProject.id q ->
          In r (project_chat db'))).
Proof.
  intros db db' p Hdel. apply session_delete_project_Return in Hdel.
  destruct Hdel as [-> _]. split.
  - assert (Hnone : forall s, status_count (delete_project_cascade p db) p s
                              = 0%nat).
    { intros s. unfold status_count, Query.count, Query.with_parent,
        Query.filter_status, Query.query_DbTask. simpl.
      rewrite filter_none; [reflexivity|].
      intros t Ht. apply filter_In in Ht. destruct Ht as [Ht _].
      apply filter_In in Ht. destruct Ht as [_ Ht].
      unfold in_project in Ht. now apply negb_true_iff in Ht. }
    repeat split; apply Hnone.
  - intros q Hq.
    assert (Hkeep : forall t, In t (tasks db) ->
              DbTask.project_id t = DbProject.id q ->
              negb (in_project p t) = true).
    { intros t _ Et. unfold in_project. apply negb_true_iff, Z.eqb_neq.
      congruence. }
    pose proof (fun s => status_count_survivors db
                           (fun t => negb (in_project p t)) q s Hkeep) as Hcount.
    split; [|split; [|split; [|split; [|split; [|split]]]]].
    + unfold project_tasks. simpl. apply filter_through.
      intros t Ht Et. apply Z.eqb_eq in Et. now apply Hkeep.
    + exact (Hcount TaskStatus.MAPPED).
    + exact (Hcount TaskStatus.VALIDATED).
    + exact (Hcount TaskStatus.BAD).
    + intros t Ht. apply in_project_tasks in Ht. destruct Ht as [_ Et].
      change (task_history_of (delete_project_cascade p db) t)
        with (task_history_of (delete_tasks_cascade (in_project p) db) t).
      apply task_history_of_survivors. intros t' _ Hd E.
      unfold in_project in Hd. apply Z.eqb_eq in Hd.
      unfold DbTask.key in E. inversion E. congruence.
    + intros r Hr Er. simpl. apply filter_In. split; [assumption|].
      apply negb_true_iff, Z.eqb_neq. congruence.
    + intros r Hr Er. simpl. apply filter_In. split; [assumption|].
      apply negb_true_iff, Z.eqb_neq. congruence.
Qed.

(** Project 1 of the sample database is deleted: project 2 keeps its task
    and the history of that task. *)
Lemma project_deletion_spares_other_projects_sample :
  project_tasks (delete_project_cascade (sample_project 1) sample_db)
    (sample_project 2)
  = [sample_task 1 2 TaskStatus.READY] /\
  task_history_of (delete_project_cascade (sample_project 1) sample_db)
    (sample_task 1 2 TaskStatus.READY)
  = [sample_history 5 1 2 TaskAction.LOCK_FOR_MAPPING 12].
Proof.
  destruct (proj2 (project_deletion_spares_other_projects sample_db
                     (delete_project_cascade (sample_project 1) sample_db)
                     (sample_project 1) eq_refl)
              (sample_project 2) ltac:(discriminate))
    as [Htasks [_ [_ [_ [Hhist _]]]]].
  split.
  - rewrite Htasks. reflexivity.
  - rewrite Hhist; [reflexivity | simpl; tauto].
Defined.

(** X10. An accepted delete of a project deletes none of its features: the
    [features] table keeps the same rows in the same order, with the same
    ids and the same task ids; the features of the project lose their
    [project_id], those of other projects are unchanged, and no feature
    names the deleted project afterwards. *)
Theorem project_deletion_detaches_features :
  forall (db db' : Db) (p : DbProject.t),
    session_delete_project db p = Return db' ->
    map DbFeatures.id (features db') = map DbFeatures.id (features db) /\
    map DbFeatures.task_id (features db')
    = map DbFeatures.task_id (features db) /\
    (forall f, In f (features db') ->
       DbFeatures.project_id f <> Some (DbProject.id p)) /\
    (forall f, In f (features db) ->
       DbFeatures.project_id f <> Some (DbProject.id p) ->
       In f (features db')) /\
    (forall f, In f (features db) ->
       DbFeatures.project_id f = Some (DbProject.id p) ->
       In (DbFeatures.mk (DbFeatures.id f) None (DbFeatures.task_id f))
          (features db')).
Proof.
  intros db db' p Hdel. apply session_delete_project_Return in Hdel.
  destruct Hdel as [-> _]. simpl.
  split; [|split; [|split; [|split]]].
  - rewrite map_map. apply map_ext. intros f.
    now destruct (col_eq_Z (DbFeatures.project_id f) (DbProject.id p)).
  - rewrite map_map. apply map_ext. intros f.
    now destruct (col_eq_Z (DbFeatures.project_id f) (DbProject.id p)).
  - intros f Hf. apply in_map_iff in Hf. destruct Hf as [f0 [E _]].
    destruct (col_eq_Z (DbFeatures.project_id f0) (DbProject.id p)) eqn:Ec;
      subst f; simpl; [discriminate|].
    intros Ep. apply col_eq_Z_true in Ep. congruence.
  - intros f Hf Hp. apply in_map_iff. exists f. split; [|assumption].
    destruct (col_eq_Z (DbFeatures.project_id f) (DbProject.id p)) eqn:Ec;
      [|reflexivity].
    apply col_eq_Z_true in Ec. contradiction.
  - intros f Hf Hp. apply in_map_iff. exists f. split; [|assumption].
    apply col_eq_Z_true in Hp. now rewrite Hp.
Qed.

(** The feature of project 1 outlives the project, without its project. *)
Lemma project_deletion_detaches_features_sample :
  In (DbFeatures.mk 1 None (Some 1))
     (features (delete_project_cascade (sample_project 1) sample_db)).
Proof.
  apply (proj2 (proj2 (proj2 (proj2
           (project_deletion_detaches_features sample_db
              (delete_project_cascade (sample_project 1) sample_db)
              (sample_project 1) eq_refl))))
           (DbFeatures.mk 1 (Some 1) (Some 1))).
  - simpl. tauto.
  - reflexivity.
Defined.

(** X11. The delete of a project is refused with [IntegrityError], and the
    database stays as it was, when an invalidation record of the project
    hangs on no history row of the project (its [invalidation_history_id] is
    NULL, or names a row of another project): no cascade reaches the record,
    and it would be left referencing the deleted project. *)
Theorem project_deletion_refused_by_unlinked_invalidation :
  forall (db : Db) (p : DbProject.t) (r : DbTaskInvalidationHistory.t),
    In r (task_invalidation_history db) ->
    DbTaskInvalidationHistory.project_id r = DbProject.id p ->
    (forall h, In h (task_history db) ->
       attached_invalidation h r = true ->
       DbTaskHistory.project_id h <> Some (DbProject.id p)) ->
    session_delete_project db p
    = Raise (IntegrityError "foreign key violation").
Proof.
  intros db p r Hr Hp Hloose. unfold session_delete_project.
  apply commit_Raise. intros Hfk.
  assert (Hstays : In r (task_invalidation_history
                           (delete_project_cascade p db))).
  { simpl. apply filter_In. split; [assumption|].
    apply negb_true_iff, existsb_false_iff. intros h Hh.
    apply filter_In in Hh. destruct Hh as [Hh Hdoomed].
    destruct (attached_invalidation h r) eqn:Ea; [|reflexivity].
    exfalso. apply (Hloose h Hh Ea).
    apply history_of_tasks_true in Hdoomed.
    destruct Hdoomed as [t [Ht Hatt]].
    apply filter_In in Ht. destruct Ht as [_ Ht].
    unfold in_project in Ht. apply Z.eqb_eq in Ht.
    apply attached_history_key in Hatt. destruct Hatt as [_ Hatt].
    now rewrite Hatt, Ht. }
  pose proof (fk_of_task_invalidation_history _ Hfk r Hstays) as H.
  unfold task_invalidation_history_fk in H.
  apply andb_true_iff in H. destruct H as [H _].
  apply andb_true_iff in H. destruct H as [H _].
  apply project_id_deleted in H. contradiction.
Qed.

(** Invalidation record 2 of project 2 has no history row: project 2 cannot
    be deleted. *)
Lemma project_deletion_refused_by_unlinked_invalidation_sample :
  session_delete_project loose_rows_db (sample_project 2)
  = Raise (IntegrityError "foreign key violation").
Proof.
  apply (project_deletion_refused_by_unlinked_invalidation loose_rows_db
           (sample_project 2)
           (DbTaskInvalidationHistory.mk 2 2 1 (Some false) (Some 7) None
              (Some 8) None None None None None)).
  - simpl. tauto.
  - reflexivity.
  - intros h _ Ha. discriminate Ha.
Defined.

(** X12. The delete of a task is refused with [IntegrityError] when a
    feature names the task through [fk_tasks]: features are on no cascade of
    [DbTask], so the feature would be left referencing the deleted task. *)
Theorem task_deletion_refused_by_feature :
  forall (db : Db) (t : DbTask.t) (f : DbFeatures.t),
    In f (features db) ->
    DbFeatures.task_id f = Some (DbTask.id t) ->
    DbFeatures.project_id f = Some (DbTask.project_id t) ->
    session_delete_task db t
    = Raise (IntegrityError "foreign key violation").
Proof.
  intros db t f Hf Ht Hp. unfold session_delete_task.
  apply commit_Raise. intros Hfk.
  pose proof (fk_of_features _ Hfk f Hf) as H.
  unfold features_fk in H. rewrite Ht, Hp in H.
  apply andb_true_iff in H. destruct H as [_ H]. simpl in H.
  apply task_key_exists in H. destruct H as [t1 [Hin [E1 E2]]].
  simpl in Hin. apply filter_In in Hin. destruct Hin as [_ Hin].
  apply negb_true_iff in Hin. unfold same_task in Hin.
  assert (key_eqb (DbTask.key t1) (DbTask.key t) = true)
    by (apply key_eqb_eq; unfold DbTask.key; congruence).
  congruence.
Qed.

(** Feature 1 names task 1 of project 1, which therefore cannot be deleted
    on its own. *)
Lemma task_deletion_refused_by_feature_sample :
  session_delete_task sample_db (sample_task 1 1 TaskStatus.MAPPED)
  = Raise (IntegrityError "foreign key violation").
Proof.
  apply (task_deletion_refused_by_feature sample_db
           (sample_task 1 1 TaskStatus.MAPPED)
           (DbFeatures.mk 1 (Some 1) (Some 1))).
  - simpl. tauto.
  - reflexivity.
  - reflexivity.
Defined.

(** A history row written without a project is selected by no cascade. *)
Lemma history_without_project_stays db doomed h :
  In h (task_history db) -> DbTaskHistory.project_id h = None ->
  In h (task_history (delete_tasks_cascade doomed db)).
Proof.
  intros Hh Hnull. simpl. apply filter_In. split; [assumption|].
  apply negb_true_iff.
  destruct (history_of_tasks (filter doomed (tasks db)) h) eqn:E;
    [|reflexivity].
  apply history_of_tasks_true in E. destruct E as [t [_ Hatt]].
  apply attached_history_key in Hatt. destruct Hatt as [_ Hatt]. congruence.
Qed.

(** X13. [task_history.project_id] is nullable.  A history row whose
    [project_id] is NULL is read through the [task_history] of no task,
    whatever its [task_id], and it outlives every accepted delete of a
    project or of a task. *)
Theorem history_without_project_is_orphaned :
  forall (db : Db) (h : DbTaskHistory.t),
    In h (task_history db) ->
    DbTaskHistory.project_id h = None ->
    (forall t, ~ In h (task_history_of db t)) /\
    (forall p db', session_delete_project db p = Return db' ->
       In h (task_history db')) /\
    (forall t db', session_delete_task db t = Return db' ->
       In h (task_history db')).
Proof.
  intros db h Hh Hnull. split; [|split].
  - intros t Hin. unfold task_history_of in Hin.
    apply (Permutation_in _ (order_by_desc_Permutation _)) in Hin.
    apply filter_In in Hin. destruct Hin as [_ Hatt].
    apply attached_history_key in Hatt. destruct Hatt as [_ Hatt]. congruence.
  - intros p db' Hdel. apply session_delete_project_Return in Hdel.
    destruct Hdel as [-> _].
    exact (history_without_project_stays db (in_project p) h Hh Hnull).
  - intros t db' Hdel. apply session_delete_task_Return in Hdel.
    destruct Hdel as [-> _].
    exact (history_without_project_stays db (same_task t) h Hh Hnull).
Qed.

(** History row 6 carries task id 1 and no project: task 1 of project 1 does
    not read it, and it is still there once project 1 is deleted. *)
Lemma history_without_project_is_orphaned_sample :
  ~ In (DbTaskHistory.mk 6 None 1 TaskAction.COMMENT (Some "note"%string) 40 7)
       (task_history_of loose_rows_db (sample_task 1 1 TaskStatus.MAPPED)) /\
  In (DbTaskHistory.mk 6 None 1 TaskAction.COMMENT (Some "note"%string) 40 7)
     (task_history (delete_project_cascade (sample_project 1) loose_rows_db)).
Proof.
  destruct (history_without_project_is_orphaned loose_rows_db
              (DbTaskHistory.mk 6 None 1 TaskAction.COMMENT
                 (Some "note"%string) 40 7)
              ltac:(simpl; tauto) eq_refl) as [Hread [Hproject _]].
  split.
  - apply Hread.
  - apply (Hproject (sample_project 1)). reflexivity.
Defined.

(** ** What a task delete leaves alone *)

Lemma in_task_history_of db t h :
  In h (task_history_of db t)
  <-> In h (task_history db) /\ attached_history t h = true.
Proof.
  unfold task_history_of. rewrite <- filter_In. split; intros H.
  - exact (Permutation_in _ (order_by_desc_Permutation _) H).
  - exact (Permutation_in _ (Permutation_sym (order_by_desc_Permutation _)) H).
Qed.

(** X15. A history row belongs to one task only: a row read through the
    [task_history] of a task is read through that of no task with another
    key, so tasks of two projects that share a task id never share history;
    under the primary key of [tasks], two task rows of the table that both
    read the row are the same row. *)
Theorem history_row_has_one_task :
  forall (db : Db) (t1 t2 : DbTask.t) (h : DbTaskHistory.t),
    In h (task_history_of db t1) ->
    (DbTask.key t2 <> DbTask.key t1 -> ~ In h (task_history_of db t2)) /\
    (tasks_pk db -> In t1 (tasks db) -> In t2 (tasks db) ->
     In h (task_history_of db t2) -> t1 = t2).
Proof.
  intros db t1 t2 h Hh1.
  apply in_task_history_of in Hh1. destruct Hh1 as [_ Ha1].
  apply attached_history_key in Ha1. destruct Ha1 as [E1 E2].
  assert (Hkey : In h (task_history_of db t2) -> DbTask.key t1 = DbTask.key t2).
  { intros Hh2. apply in_task_history_of in Hh2. destruct Hh2 as [_ Ha2].
    apply attached_history_key in Ha2. destruct Ha2 as [E3 E4].
    unfold DbTask.key. f_equal; congruence. }
  split.
  - intros Hne Hh2. apply Hne. symmetry. now apply Hkey.
  - intros Hpk H1 H2 Hh2.
    exact (NoDup_map_inj_on DbTask.key (tasks db) t1 t2 Hpk H1 H2 (Hkey Hh2)).
Qed.

(** Task 1 of project 1 and task 1 of project 2 share the id 1; history
    row 1 is read through the former and not through the latter. *)
Lemma history_row_has_one_task_sample :
  In (sample_history 1 1 1 TaskAction.LOCK_FOR_MAPPING 10)
     (task_history_of sample_db (sample_task 1 1 TaskStatus.MAPPED)) /\
  ~ In (sample_history 1 1 1 TaskAction.LOCK_FOR_MAPPING 10)
       (task_history_of sample_db (sample_task 1 2 TaskStatus.READY)).
Proof.
  assert (Hin : In (sample_history 1 1 1 TaskAction.LOCK_FOR_MAPPING 10)
                   (task_history_of sample_db
                      (sample_task 1 1 TaskStatus.MAPPED)))
    by (simpl; tauto).
  split; [exact Hin|].
  apply (proj1 (history_row_has_one_task sample_db
                  (sample_task 1 1 TaskStatus.MAPPED)
                  (sample_task 1 2 TaskStatus.READY) _ Hin)).
  discriminate.
Defined.

(** X16. An accepted delete of a task removes that task only: the remaining
    task rows are exactly those with another key, each of them reads the
    same history as before, and projects, their info and chat rows and the
    features are unchanged. *)
Theorem task_deletion_spares_other_tasks :
  forall (db db' : Db) (t : DbTask.t),
    session_delete_task db t = Return db' ->
    (forall t', In t' (tasks db')
                <-> In t' (tasks db) /\ DbTask.key t' <> DbTask.key t) /\
    (forall t', DbTask.key t' <> DbTask.key t ->
       task_history_of db' t' = task_history_of db t') /\
    projects db' = projects db /\ project_info db' = project_info db /\
    project_chat db' = project_chat db /\ features db' = features db.
Proof.
  intros db db' t Hdel. apply session_delete_task_Return in Hdel.
  destruct Hdel as [-> _].
  split; [|split; [|repeat split]].
  - intros t'. simpl. rewrite filter_In, negb_true_iff, same_task_false.
    reflexivity.
  - intros t' Hne. apply task_history_of_survivors.
    intros t0 _ Hd E. unfold same_task in Hd. apply key_eqb_eq in Hd.
    congruence.
Qed.

(** Deleting task 2 of project 1, which no feature names, leaves task 1 of
    the project with its two history rows. *)
Lemma task_deletion_spares_other_tasks_sample :
  task_history_of
    (delete_tasks_cascade (same_task (sample_task 2 1 TaskStatus.READY))
       sample_db)
    (sample_task 1 1 TaskStatus.MAPPED)
  = [sample_history 2 1 1 TaskAction.MAPPED 20;
     sample_history 1 1 1 TaskAction.LOCK_FOR_MAPPING 10].
Proof.
  rewrite (proj1 (proj2 (task_deletion_spares_other_tasks sample_db
                           (delete_tasks_cascade
                              (same_task (sample_task 2 1 TaskStatus.READY))
                              sample_db)
                           (sample_task 2 1 TaskStatus.READY) eq_refl))
             (sample_task 1 1 TaskStatus.MAPPED) ltac:(discriminate)).
  reflexivity.
Defined.

(** Removing the rows of a key from a table in which the key occurs once. *)
Lemma filter_other_keys (l1 l2 : list DbTask.t) (t : DbTask.t) :
  NoDup (map DbTask.key (l1 ++ t :: l2)) ->
  filter (fun t' => negb (same_task t t')) (l1 ++ t :: l2) = l1 ++ l2.
Proof.
  intros Hnd. rewrite filter_app. simpl.
  unfold same_task at 2. rewrite key_eqb_refl. simpl.
  rewrite map_app in Hnd. simpl in Hnd.
  pose proof (NoDup_remove_2 _ _ _ Hnd) as Hfresh.
  assert (Hall : forall l, (forall x, In x l -> In (DbTask.key x)
                              (map DbTask.key l1 ++ map DbTask.key l2)) ->
                 filter (fun t' => negb (same_task t t')) l = l).
  { induction l as [|x l IH]; simpl; intros Hl; [reflexivity|].
    assert (Hx : same_task t x = false).
    { apply same_task_false. intros E. apply Hfresh. rewrite <- E.
      apply Hl. now left. }
    rewrite Hx. simpl. f_equal. apply IH. intros y Hy. apply Hl. now right. }
  rewrite !Hall; [reflexivity| |].
  - intros x Hx. apply in_or_app. right. now apply in_map.
  - intros x Hx. apply in_or_app. left. now apply in_map.
Qed.

(** X17. The derived counts follow a delete of a task: under the primary key
    of [tasks], an accepted delete of a task row lowers by one the count of
    the task's own project for the task's own status, and changes no other
    count of any project. *)
Theorem task_deletion_lowers_one_count :
  forall (db db' : Db) (t : DbTask.t) (project : DbProject.t)
         (s : TaskStatus.t),
    tasks_pk db -> In t (tasks db) ->
    session_delete_task db t = Return db' ->
    Nat.add (status_count db' project s)
      (Nat.b2n ((DbTask.project_id t =? DbProject.id project)
                && col_eq_status (DbTask.task_status t) s))
    = status_count db project s.
Proof.
  intros db db' t project s Hpk Hin Hdel.
  apply session_delete_task_Return in Hdel. destruct Hdel as [-> _].
  unfold status_count, Query.count, Query.with_parent, Query.filter_status,
    Query.query_DbTask. simpl.
  unfold tasks_pk in Hpk.
  apply in_split in Hin. destruct Hin as [l1 [l2 E]]. rewrite E in *.
  rewrite (filter_other_keys l1 l2 t Hpk).
  rewrite status_count_app_cons.
  rewrite !filter_app, !length_app.
  destruct ((DbTask.project_id t =? DbProject.id project)
            && col_eq_status (DbTask.task_status t) s); simpl; lia.
Qed.

(** Deleting the READY task 2 of project 1 leaves its mapped count at 1. *)
Lemma task_deletion_lowers_one_count_sample :
  tasks_mapped
    (delete_tasks_cascade (same_task (sample_task 2 1 TaskStatus.READY))
       sample_db)
    (sample_project 1)
  = 1%nat.
Proof.
  pose proof (task_deletion_lowers_one_count sample_db
                (delete_tasks_cascade
                   (same_task (sample_task 2 1 TaskStatus.READY)) sample_db)
                (sample_task 2 1 TaskStatus.READY) (sample_project 1)
                TaskStatus.MAPPED
                (pk_tasks _ sample_db_primary_keys)
                ltac:(simpl; tauto) eq_refl) as H.
  exact (eq_trans (eq_sym (Nat.add_0_r _)) H).
Defined.

(** ** Creating and deleting in a row *)

Lemma filter_last_out (rows : list DbOrganisation.t) (o : DbOrganisation.t) :
  (forall x, In x rows -> DbOrganisation.id x <> DbOrganisation.id o) ->
  filter (fun x => negb (DbOrganisation.id x =? DbOrganisation.id o))
         (rows ++ [o])
  = rows.
Proof.
  intros Hold. rewrite filter_app. simpl. rewrite Z.eqb_refl. simpl.
  rewrite app_nil_r. induction rows as [|x rows IH]; simpl; [reflexivity|].
  assert (E : (DbOrganisation.id x =? DbOrganisation.id o) = false)
    by (apply Z.eqb_neq, Hold; now left).
  rewrite E. simpl. f_equal. apply IH. intros y Hy. apply Hold. now right.
Qed.

Lemma without_unknown_organisation db oid :
  foreign_keys db -> ~ In oid (organisation_ids db) ->
  map (without_organisation oid) (projects db) = projects db.
Proof.
  intros Hfk Hnew. rewrite <- (map_id (projects db)) at 2.
  apply map_ext_in. intros q Hq. unfold without_organisation.
  destruct (col_eq_Z (DbProject.organisation_id q) oid) eqn:E; [|reflexivity].
  exfalso. apply Hnew. apply col_eq_Z_true in E.
  pose proof (fk_of_project db Hfk q Hq) as H. unfold project_fk in H.
  rewrite E in H. simpl in H. now apply mem_Z_In.
Qed.

(** X18. Creating an organisation and then deleting it by the id that the
    sequence gave to its row restores the tables: on a database whose
    foreign keys hold, the delete of the new organisation is accepted,
    answers "Organization Deleted Successfully.", and leaves every table
    exactly as it was before the creation. *)
Theorem create_then_delete_restores_database :
  forall (generate_slug : string -> string) (organisation_id : Z)
         (db db' : Db) (name : string)
         (description url logo : option string)
         (response : organization_routes.Response),
    foreign_keys_ok db = true ->
    organization_routes.create_organization
      (organization_crud.create_organization generate_slug organisation_id)
      db name description url logo = (db', Return response) ->
    organization_routes.delete_organisations db' organisation_id
    = (db, Return [("Message"%string,
                    "Organization Deleted Successfully."%string)]).
Proof.
  intros generate_slug organisation_id db db' name description url logo
         response Hfk Hcreate.
  apply create_organization_Return in Hcreate. destruct Hcreate as [-> Hold].
  apply foreign_keys_ok_iff in Hfk.
  set (o := DbOrganisation.mk organisation_id name
              (generate_slug name) logo description url).
  assert (Hnew : ~ In organisation_id (organisation_ids db)).
  { intros Hin. unfold organisation_ids in Hin. apply in_map_iff in Hin.
    destruct Hin as [x [E Hx]]. exact (Hold x Hx E). }
  unfold organization_routes.delete_organisations,
    organization_crud.get_organisation_by_id. simpl organisations.
  rewrite (find_last _ (organisations db) o).
  - destruct (session_delete_organisation_cases
                (with_organisations (organisations db ++ [o]) db) o)
      as [[[t [Ht Et]] _] | [_ ->]].
    + exfalso. apply Hnew. simpl in Ht, Et. rewrite <- Et.
      apply mem_Z_In. exact (fk_of_team db Hfk t Ht).
    + simpl organisations. simpl projects.
      rewrite (filter_last_out (organisations db) o Hold).
      change (DbOrganisation.id o) with organisation_id.
      rewrite (without_unknown_organisation db _ Hfk Hnew).
      assert (Esame : with_projects (projects db)
                        (with_organisations (organisations db)
                           (with_organisations (organisations db ++ [o]) db))
                      = db) by (destruct db; reflexivity).
      rewrite Esame. unfold commit.
      rewrite (proj2 (foreign_keys_ok_iff db) Hfk). reflexivity.
  - intros x Hx. apply Z.eqb_neq. exact (Hold x Hx).
  - simpl. apply Z.eqb_refl.
Qed.

(** "Red Cross" is created in the database of two organisations, where the
    sequence gives it the id 5, and deleted again under that id. *)
Lemma create_then_delete_restores_database_sample :
  organization_routes.delete_organisations
    (fst (organization_routes.create_organization
            (organization_crud.create_organization (fun s => s) 5)
            two_orgs_db "Red Cross" None None None))
    5
  = (two_orgs_db,
     Return [("Message"%string, "Organization Deleted Successfully."%string)]).
Proof.
  exact (create_then_delete_restores_database (fun s => s) 5 two_orgs_db _
           "Red Cross" None None None _ eq_refl eq_refl).
Defined.
